(** * Job tracker backend: controllers, validators and their properties

    A shallow embedding of the Express backend of the job-application
    tracker: the request validators ([middleware/validator.js]), the error
    handler ([middleware/errorHandler.js]), the job controller
    ([controllers/jobController.js]), the generative-service configuration
    ([config/openai.js]) and the email controller
    ([controllers/aiController.js]).

    Conventions of the embedding.
    - A JavaScript string is a [string] of 8-bit code units; case folding and
      white space are the ASCII parts of [toLowerCase], [trim] and [\s].
    - A request body or query is a finite map from field names to text
      ([gmap string string]); an absent key is [undefined].
    - The hosted table [job_applications] is a list of rows; every call of
      the store client takes a [fault] argument, the error answer the store
      may give instead of a result (network, syntax, range, ...).
    - A handler returns what it sent, or the error it threw. *)

From Stdlib Require Import ZArith Ascii String.
From stdpp Require Import base option list sorting gmap strings.

Local Open Scope string_scope.
Local Open Scope Z_scope.
Local Open Scope list_scope.

(** ** JavaScript strings *)

Module Js.

Definition code (c : ascii) : nat := nat_of_ascii c.

(** TAB, LF, VT, FF, CR and SPACE: what [trim] and the class [\s] remove. *)
Definition is_ws (c : ascii) : bool :=
  ((9 <=? code c) && (code c <=? 13))%nat || (code c =? 32)%nat.

Definition lower_char (c : ascii) : ascii :=
  if ((65 <=? code c) && (code c <=? 90))%nat
  then ascii_of_nat (code c + 32) else c.

Fixpoint toLowerCase (s : string) : string :=
  match s with
  | EmptyString => EmptyString
  | String c s' => String (lower_char c) (toLowerCase s')
  end.

(** [s.startsWith(p)] *)
Definition startsWith (s p : string) : bool := String.prefix p s.

Fixpoint trimStart (s : string) : string :=
  match s with
  | EmptyString => EmptyString
  | String c s' => if is_ws c then trimStart s' else s
  end.

Fixpoint trimEnd (s : string) : string :=
  match s with
  | EmptyString => EmptyString
  | String c s' =>
      match trimEnd s' with
      | EmptyString => if is_ws c then EmptyString else String c EmptyString
      | t => String c t
      end
  end.

Definition trim (s : string) : string := trimEnd (trimStart s).

(** [s.split(sep)] for a one-character separator. *)
Fixpoint split (sep : ascii) (s : string) : list string :=
  match s with
  | EmptyString => [EmptyString]
  | String c s' =>
      if Ascii.eqb c sep then EmptyString :: split sep s'
      else match split sep s' with
           | l :: ls => String c l :: ls
           | [] => [String c EmptyString]
           end
  end.

Definition nl_char : ascii := ascii_of_nat 10.
Definition nl : string := String nl_char EmptyString.
Definition dquote : string := String (ascii_of_nat 34) EmptyString.

(** [ls.join(sep)] *)
Definition join (sep : string) (ls : list string) : string :=
  String.concat sep ls.

(** [s.includes(sub)] *)
Fixpoint includes (s sub : string) : bool :=
  String.prefix sub s
  || match s with
     | EmptyString => false
     | String _ s' => includes s' sub
     end.

(** Truthiness of a possibly undefined string: [undefined] and the empty
    string are falsy. *)
Definition truthy (v : option string) : bool :=
  match v with
  | Some (String _ _) => true
  | _ => false
  end.

(** [v || d] on possibly undefined strings. *)
Definition or_else (v : option string) (d : string) : string :=
  match v with
  | Some (String c s) => String c s
  | _ => d
  end.

Definition digit (c : ascii) : option Z :=
  if ((48 <=? code c) && (code c <=? 57))%nat
  then Some (Z.of_nat (code c - 48)) else None.

Definition hex_digit (c : ascii) : option Z :=
  match digit c with
  | Some d => Some d
  | None =>
      let k := code (lower_char c) in
      if ((97 <=? k) && (k <=? 102))%nat
      then Some (Z.of_nat (k - 87)) else None
  end.

(** The longest run of digits at the head of [s], read in [radix];
    [None] when there is none (the caller's NaN). *)
Fixpoint digits (dig : ascii -> option Z) (radix : Z)
         (acc : option Z) (s : string) : option Z :=
  match s with
  | EmptyString => acc
  | String c s' =>
      match dig c with
      | Some d => digits dig radix (Some (radix * default 0 acc + d)) s'
      | None => acc
      end
  end.

Definition unsigned (s : string) : option Z :=
  match s with
  | String "0" (String x r) =>
      if Ascii.eqb (lower_char x) "x" then digits hex_digit 16 None r
      else digits digit 10 None s
  | _ => digits digit 10 None s
  end.

(** [parseInt(s)]: leading white space, a sign, an optional [0x], digits.
    [None] is NaN. *)
Definition parseInt (s : string) : option Z :=
  match trimStart s with
  | String "-" r => Z.opp <$> unsigned r
  | String "+" r => unsigned r
  | r => unsigned r
  end.

End Js.

(** ** Errors and responses ([middleware/errorHandler.js]) *)

(** A thrown JavaScript error as the global handler reads it: its message and
    the two properties only an [APIError] sets. *)
Record JsError := {
  err_message : string;
  err_statusCode : option nat;
  err_code : option string
}.

(** [new APIError(message, statusCode, code)] *)
Definition APIError (message : string) (statusCode : nat) (code : string)
  : JsError :=
  {| err_message := message;
     err_statusCode := Some statusCode;
     err_code := Some code |}.

(** Any other exception (a [TypeError], an [Error]). *)
Definition PlainError (message : string) : JsError :=
  {| err_message := message; err_statusCode := None; err_code := None |}.

Definition FieldError : Type := string * string.

(** ** Rows of [job_applications] ([database/schema.sql]) *)

(** Every column is kept as the text the JSON API carries for it: a UUID, a
    calendar date [YYYY-MM-DD], an ISO 8601 instant. *)
Record Row := {
  id : string;
  user_id : string;
  company_name : string;
  role : string;
  status : string;
  applied_date : string;
  notes : string;
  created_at : string;
  updated_at : string
}.

#[global] Instance Row_eq_dec : EqDecision Row.
Proof. solve_decision. Defined.

Definition statuses : list string :=
  ["Applied"; "Interview"; "Rejected"; "Offer"].

Definition columns : list string :=
  ["id"; "user_id"; "company_name"; "role"; "status"; "applied_date";
   "notes"; "created_at"; "updated_at"].

(** ** What a handler sends *)

Record Stats := {
  total : nat;
  applied : nat;
  interview : nat;
  rejected : nat;
  offer : nat
}.

Record Email := {
  subject : string;
  body : string;
  generated_by : string;
  note : option string
}.

Record Pagination := {
  pg_total : Z;
  pg_limit : option Z;
  pg_offset : option Z;
  hasMore : bool
}.

Inductive Payload :=
| PJobs (data : list Row) (pagination : Pagination)
| PJob (message : option string) (data : Row)
| PMessage (message : string)
| PStats (stats : Stats) (recent : list Row)
| PEmail (data : Email)
| PError (message code : string) (errors : list FieldError).

Record Response := {
  http_status : nat;
  success : bool;
  payload : Payload
}.

(** [res.json(...)] and [res.status(n).json(...)] of a success body. *)
Definition ok (p : Payload) : Response :=
  {| http_status := 200; success := true; payload := p |}.

Definition created (p : Payload) : Response :=
  {| http_status := 201; success := true; payload := p |}.

(** A handler wrapped by [asyncHandler] either sends a response or rejects
    with an error, which [asyncHandler] passes to [next]. *)
Inductive Outcome :=
| Sent (r : Response)
| Thrown (e : JsError).

(** [globalErrorHandler]: [isDevelopment] is [NODE_ENV === 'development'].
    The stack trace added to the body in development is not kept. *)
Definition globalErrorHandler (isDevelopment : bool) (err : JsError)
  : Response :=
  let statusCode :=
    match err_statusCode err with
    | Some (S n) => S n
    | _ => 500%nat
    end in
  let errorCode := Js.or_else (err_code err) "INTERNAL_ERROR" in
  let message :=
    if isDevelopment then err_message err
    else if (statusCode =? 500)%nat then "Internal server error"
         else err_message err in
  {| http_status := statusCode; success := false;
     payload := PError message errorCode [] |}.

(** The response the caller receives from a route whose handler ended in
    [o]. *)
Definition respond (isDevelopment : bool) (o : Outcome) : Response :=
  match o with
  | Sent r => r
  | Thrown e => globalErrorHandler isDevelopment e
  end.

(** ** Request validation ([middleware/validator.js]) *)

Module Validator.

(** The library's conversion of a field to text: [undefined] gives the
    empty string. *)
Definition toString (v : option string) : string := default "" v.

Definition check (passed : bool) (field msg : string) : list FieldError :=
  if passed then [] else [(field, msg)].

Definition notEmpty (s : string) : bool := negb (String.eqb s "").

Definition isLength (min max : nat) (s : string) : bool :=
  ((min <=? String.length s) && (String.length s <=? max))%nat.

Definition isIn (allowed : list string) (s : string) : bool :=
  bool_decide (s ∈ allowed).

Fixpoint all_digits (s : string) : bool :=
  match s with
  | EmptyString => true
  | String c s' => bool_decide (is_Some (Js.digit c)) && all_digits s'
  end.

(** The library's integer syntax: an optional sign and one or more
    decimal digits. *)
Definition int_syntax (s : string) : bool :=
  let r := match s with
           | String "-" r => r
           | String "+" r => r
           | _ => s
           end in
  negb (String.eqb r "") && all_digits r.

(** [isInt({min, max})]: the syntax, and the bounds on the number read. *)
Definition isInt (min max : option Z) (s : string) : bool :=
  int_syntax s
  && match Js.parseInt s with
     | Some n =>
         from_option (fun lo => lo <=? n) true min
         && from_option (fun hi => n <=? hi) true max
     | None => false
     end.

(** A field that must be present: [.trim()] writes the trimmed text back
    into the body. *)
Definition trimmed (field : string) (b : gmap string string)
  : gmap string string :=
  <[field := Js.trim (toString (b !! field))]> b.

(** [.optional().trim()]: an absent field stays absent. *)
Definition trimmed_opt (field : string) (b : gmap string string)
  : gmap string string :=
  alter Js.trim field b.

(** The checks of an [.optional()] chain run only on a present field. *)
Definition optional (v : option string) (checks : string -> list FieldError)
  : list FieldError :=
  match v with
  | Some s => checks s
  | None => []
  end.

(** [handleValidationErrors]: the 400 answer, or [next()]. *)
Definition handleValidationErrors (errors : list FieldError)
  : option Response :=
  match errors with
  | [] => None
  | _ =>
      Some {| http_status := 400; success := false;
              payload := PError "Validation failed" "VALIDATION_ERROR"
                                errors |}
  end.

Section Rules.

(** The two format predicates of the validation library the rules call;
    the library is not part of the repository. *)
Variable isISO8601 : string -> bool.
Variable isUUID : string -> bool.

Definition text_rules (field required between : string)
           (b : gmap string string) : list FieldError :=
  let v := toString (b !! field) in
  check (notEmpty v) field required
  ++ check (isLength 1 200 v) field between.

Definition status_rule (v : string) : list FieldError :=
  check (isIn statuses v) "status"
        "Status must be one of: Applied, Interview, Rejected, Offer".

Definition date_rule (v : string) : list FieldError :=
  check (isISO8601 v) "applied_date"
        "Applied date must be a valid date (YYYY-MM-DD)".

Definition notes_rule (v : string) : list FieldError :=
  check (isLength 0 2000 v) "notes"
        "Notes must be less than 2000 characters".

(** [validateJobApplication]: the sanitized body and the errors. *)
Definition validateJobApplication (body : gmap string string)
  : gmap string string * list FieldError :=
  let b := trimmed_opt "notes"
             (trimmed "role" (trimmed "company_name" body)) in
  (b,
   text_rules "company_name" "Company name is required"
     "Company name must be between 1 and 200 characters" b
   ++ text_rules "role" "Role is required"
        "Role must be between 1 and 200 characters" b
   ++ (check (notEmpty (toString (b !! "status"))) "status"
         "Status is required"
       ++ status_rule (toString (b !! "status")))
   ++ optional (b !! "applied_date") date_rule
   ++ optional (b !! "notes") notes_rule).

(** [validateUpdateJobApplication]: every rule is optional; a field the
    rules do not name is neither checked nor removed. *)
Definition validateUpdateJobApplication (body : gmap string string)
  : gmap string string * list FieldError :=
  let b := trimmed_opt "notes"
             (trimmed_opt "role" (trimmed_opt "company_name" body)) in
  (b,
   optional (b !! "company_name") (fun v =>
     check (notEmpty v) "company_name" "Company name cannot be empty"
     ++ check (isLength 1 200 v) "company_name"
          "Company name must be between 1 and 200 characters")
   ++ optional (b !! "role") (fun v =>
        check (notEmpty v) "role" "Role cannot be empty"
        ++ check (isLength 1 200 v) "role"
             "Role must be between 1 and 200 characters")
   ++ optional (b !! "status") status_rule
   ++ optional (b !! "applied_date") date_rule
   ++ optional (b !! "notes") notes_rule).

(** [validateUUID] on the route parameter [id]. *)
Definition validateUUID (id : string) : list FieldError :=
  check (isUUID id) "id" "Invalid ID format. Must be a valid UUID".

(** [validateQueryParams] *)
Definition validateQueryParams (query : gmap string string)
  : gmap string string * list FieldError :=
  let q := trimmed_opt "search" query in
  (q,
   optional (q !! "status") (fun v =>
     check (isIn statuses v) "status"
       "Status filter must be one of: Applied, Interview, Rejected, Offer")
   ++ optional (q !! "search") (fun v =>
        check (isLength 0 100 v) "search" "Search query too long")
   ++ optional (q !! "limit") (fun v =>
        check (isInt (Some 1) (Some 100) v) "limit"
          "Limit must be between 1 and 100")
   ++ optional (q !! "offset") (fun v =>
        check (isInt (Some 0) None v) "offset"
          "Offset must be a non-negative integer")).

(** [validateEmailGeneration] *)
Definition validateEmailGeneration (body : gmap string string)
  : gmap string string * list FieldError :=
  let b := trimmed "your_name"
             (trimmed_opt "recipient_name"
                (trimmed "role" (trimmed "company_name" body))) in
  (b,
   (check (notEmpty (toString (b !! "type"))) "type"
      "Email type is required"
    ++ check (isIn ["cold"; "followup"; "referral"]
                (toString (b !! "type"))) "type"
         "Type must be one of: cold, followup, referral")
   ++ check (notEmpty (toString (b !! "company_name"))) "company_name"
        "Company name is required"
   ++ check (notEmpty (toString (b !! "role"))) "role" "Role is required"
   ++ check (notEmpty (toString (b !! "your_name"))) "your_name"
        "Your name is required").

End Rules.

End Validator.

(** ** The store behind [supabaseAdmin] *)

(** The error object of a store answer; the controllers read its [code]. *)
Record PgError := {
  pg_code : string
}.

(** [users] is [auth.users(id)], the target of the foreign key of
    [user_id]; [jobs] is the table. *)
Record Store := {
  users : gset string;
  jobs : list Row
}.

(** What the store dates and stamps a written row with: [db_uuid] is
    [uuid_generate_v4()], [db_now] is [NOW()]; [js_now] is the server's
    [new Date().toISOString()]. *)
Record Clock := {
  js_now : string;
  db_now : string;
  db_uuid : string
}.

Module Pg.

(** The answer of one store call: [fault] when the store answers with an
    error of its own, the computed result otherwise. *)
Definition answer {A} (fault : option PgError) (result : A + PgError)
  : A + PgError :=
  match fault with
  | Some e => inr e
  | None => result
  end.

Definition no_single_row : PgError := {| pg_code := "PGRST116" |}.
Definition unknown_column : PgError := {| pg_code := "PGRST204" |}.
Definition bad_range : PgError := {| pg_code := "PGRST103" |}.
Definition not_null_violation : PgError := {| pg_code := "23502" |}.
Definition foreign_key_violation : PgError := {| pg_code := "23503" |}.
Definition unique_violation : PgError := {| pg_code := "23505" |}.
Definition check_violation : PgError := {| pg_code := "23514" |}.

(** [.single()]: exactly one row, or the error [PGRST116]. *)
Definition single (rows : list Row) : Row + PgError :=
  match rows with
  | [r] => inl r
  | _ => inr no_single_row
  end.

(** [.eq('id', id).eq('user_id', userId)] *)
Definition mine (i userId : string) (r : Row) : Prop :=
  id r = i ∧ user_id r = userId.

#[global] Instance mine_dec i userId r : Decision (mine i userId r).
Proof. unfold mine. apply _. Defined.

(** SQL [LIKE]: [%] is any run of characters, [_] any one character, a
    backslash makes the next character literal. *)
Fixpoint like (p : string) : string -> bool :=
  match p with
  | EmptyString => fun s => String.eqb s ""
  | String c p' =>
      if Ascii.eqb c "%" then
        fix any (s : string) : bool :=
          like p' s
          || match s with
             | EmptyString => false
             | String _ s' => any s'
             end
      else if Ascii.eqb c "_" then
        fun s => match s with
                 | EmptyString => false
                 | String _ s' => like p' s'
                 end
      else if Ascii.eqb c "\" then
        match p' with
        | EmptyString => fun _ => false
        | String e p'' =>
            fun s => match s with
                     | EmptyString => false
                     | String d s' => Ascii.eqb d e && like p'' s'
                     end
        end
      else
        fun s => match s with
                 | EmptyString => false
                 | String d s' => Ascii.eqb d c && like p' s'
                 end
  end.

(** The API writes [%] also as [*]. *)
Fixpoint stars (p : string) : string :=
  match p with
  | EmptyString => EmptyString
  | String c p' => String (if Ascii.eqb c "*" then "%"%char else c) (stars p')
  end.

(** The filter operator [ilike]: [LIKE] without regard to case. *)
Definition ilike (pattern text : string) : bool :=
  like (Js.toLowerCase (stars pattern)) (Js.toLowerCase text).

(** [.order('applied_date', { ascending: false })]: on calendar dates
    [YYYY-MM-DD] the order of the dates is the order of their text. *)
Definition applied_desc (r1 r2 : Row) : Prop :=
  String.leb (applied_date r2) (applied_date r1) = true.

(** [.order('created_at', { ascending: false })] *)
Definition created_desc (r1 r2 : Row) : Prop :=
  String.leb (created_at r2) (created_at r1) = true.

#[global] Instance applied_desc_dec r1 r2 : Decision (applied_desc r1 r2).
Proof. unfold applied_desc. apply _. Defined.

#[global] Instance created_desc_dec r1 r2 : Decision (created_desc r1 r2).
Proof. unfold created_desc. apply _. Defined.

(** [.range(from, to)]: rows [from] to [to], both included. A bound that
    is not a number, or a negative one, is refused by the store. *)
Definition range (from to : option Z) (rows : list Row)
  : list Row + PgError :=
  match from, to with
  | Some f, Some t =>
      if (0 <=? f) && (f - 1 <=? t)
      then inl (take (Z.to_nat (t - f + 1)) (drop (Z.to_nat f) rows))
      else inr bad_range
  | _, _ => inr bad_range
  end.

(** [.insert([{...}]).select()]: [id], [created_at] and [updated_at] take
    their column defaults. The constraints of the schema are checked on
    the written row: [NOT NULL], the foreign key of [user_id], the [CHECK]
    on [status] and the primary key. *)
Definition insert (st : Store) (clk : Clock) (userId : string)
           (company role stat : option string) (applied note : string)
  : Store * list Row + PgError :=
  match company, role, stat with
  | Some c, Some r, Some s =>
      let row := {| id := db_uuid clk; user_id := userId;
                    company_name := c; role := r; status := s;
                    applied_date := applied; notes := note;
                    created_at := db_now clk; updated_at := db_now clk |} in
      if negb (bool_decide (user_id row ∈ users st)) then
        inr foreign_key_violation
      else if negb (bool_decide (status row ∈ statuses)) then
        inr check_violation
      else if bool_decide (id row ∈ id <$> jobs st) then
        inr unique_violation
      else inl ({| users := users st; jobs := jobs st ++ [row] |}, [row])
  | _, _, _ => inr not_null_violation
  end.

(** The assignment of the columns a patch names. *)
Definition assign (patch : gmap string string) (r : Row) : Row :=
  {| id := default (id r) (patch !! "id");
     user_id := default (user_id r) (patch !! "user_id");
     company_name := default (company_name r) (patch !! "company_name");
     role := default (role r) (patch !! "role");
     status := default (status r) (patch !! "status");
     applied_date := default (applied_date r) (patch !! "applied_date");
     notes := default (notes r) (patch !! "notes");
     created_at := default (created_at r) (patch !! "created_at");
     updated_at := default (updated_at r) (patch !! "updated_at") |}.

(** The trigger [update_job_applications_updated_at], before each row
    update. *)
Definition update_updated_at_column (clk : Clock) (r : Row) : Row :=
  {| id := id r; user_id := user_id r; company_name := company_name r;
     role := role r; status := status r; applied_date := applied_date r;
     notes := notes r; created_at := created_at r;
     updated_at := db_now clk |}.

(** [.update(patch).eq('id', i).eq('user_id', userId).select()]: the new
    table and the rows written. A key that is no column, or a written row
    that breaks a constraint, is an error and nothing is written. *)
Definition update (st : Store) (clk : Clock) (i userId : string)
           (patch : gmap string string) : Store * list Row + PgError :=
  if negb (bool_decide (dom patch ⊆ list_to_set columns)) then
    inr unknown_column
  else
    let write r := update_updated_at_column clk (assign patch r) in
    let written := write <$> filter (mine i userId) (jobs st) in
    let table :=
      (fun r => if decide (mine i userId r) then write r else r)
        <$> jobs st in
    if negb (bool_decide (Forall (fun r => user_id r ∈ users st) written))
    then inr foreign_key_violation
    else if negb (bool_decide (Forall (fun r => status r ∈ statuses)
                                      written))
    then inr check_violation
    else if negb (bool_decide (NoDup (id <$> table)))
    then inr unique_violation
    else inl ({| users := users st; jobs := table |}, written).

(** [.delete().eq('id', i).eq('user_id', userId)] *)
Definition delete (st : Store) (i userId : string) : Store + PgError :=
  inl {| users := users st;
         jobs := filter (fun r => ¬ mine i userId r) (jobs st) |}.

(** A write that must return a single row: any other number of rows is
    the error [PGRST116] and the write is undone. *)
Definition returning_single (w : Store * list Row + PgError)
  : Store * Row + PgError :=
  match w with
  | inl (st', [r]) => inl (st', r)
  | inl _ => inr no_single_row
  | inr e => inr e
  end.

End Pg.

(** ** The job controller ([controllers/jobController.js]) *)

Module JobController.

Import Pg.

(** The rows a list request matches: the caller's, with the status asked
    for when [status] is truthy, and with the search pattern on the company
    name or the role when [search] is truthy. The text given to [.or(...)]
    is read as its two [ilike] conditions, which is how the store reads it
    when the term holds no comma, parenthesis or double quote; how the store
    splits the text of another term is not followed. *)
Definition matches (userId : string) (stat search : option string)
           (r : Row) : bool :=
  bool_decide (user_id r = userId)
  && (if Js.truthy stat
      then bool_decide (Some (status r) = stat) else true)
  && (if Js.truthy search
      then let pattern := "%" +:+ default "" search +:+ "%" in
           ilike pattern (company_name r) || ilike pattern (role r)
      else true).

(** [a + b] and [a + b - 1] on numbers that may be NaN. *)
Definition last_index (offset limit : option Z) : option Z :=
  match offset, limit with
  | Some o, Some l => Some (o + l - 1)
  | _, _ => None
  end.

Definition getAllJobs (st : Store) (fault : option PgError)
           (userId : string) (query : gmap string string) : Outcome :=
  let stat := query !! "status" in
  let search := query !! "search" in
  let limit := Js.parseInt (default "50" (query !! "limit")) in
  let offset := Js.parseInt (default "0" (query !! "offset")) in
  let found := filter (fun r => matches userId stat search r) (jobs st) in
  let page :=
    answer fault
      (range offset (last_index offset limit)
             (merge_sort applied_desc found)) in
  match page with
  | inr _ =>
      Thrown (APIError "Failed to fetch job applications" 500 "FETCH_ERROR")
  | inl data =>
      let count := Z.of_nat (length found) in
      Sent (ok (PJobs data
        {| pg_total := count;
           pg_limit := limit;
           pg_offset := offset;
           hasMore := match offset with
                      | Some o => o + Z.of_nat (length data) <? count
                      | None => false
                      end |}))
  end.

Definition getJobById (st : Store) (fault : option PgError)
           (userId i : string) : Outcome :=
  match answer fault (single (filter (mine i userId) (jobs st))) with
  | inr error =>
      if String.eqb (pg_code error) "PGRST116"
      then Thrown (APIError "Job application not found" 404 "NOT_FOUND")
      else Thrown (APIError "Failed to fetch job application" 500
                            "FETCH_ERROR")
  | inl data => Sent (ok (PJob None data))
  end.

(** [new Date().toISOString().split('T')[0]] *)
Definition today (clk : Clock) : string :=
  default "" (head (Js.split "T" (js_now clk))).

Definition createJob (st : Store) (fault : option PgError) (clk : Clock)
           (userId : string) (body : gmap string string)
  : Store * Outcome :=
  let stored :=
    answer fault
      (returning_single
         (insert st clk userId
            (body !! "company_name") (body !! "role") (body !! "status")
            (Js.or_else (body !! "applied_date") (today clk))
            (Js.or_else (body !! "notes") ""))) in
  match stored with
  | inr _ =>
      (st, Thrown (APIError "Failed to create job application" 500
                            "CREATE_ERROR"))
  | inl (st', data) =>
      (st', Sent (created (PJob (Some "Job application created successfully")
                                data)))
  end.

Definition updateJob (st : Store) (fault1 fault2 : option PgError)
           (clk : Clock) (userId i : string)
           (updates : gmap string string) : Store * Outcome :=
  match answer fault1 (single (filter (mine i userId) (jobs st))) with
  | inr _ =>
      (st, Thrown (APIError "Job application not found" 404 "NOT_FOUND"))
  | inl _ =>
      let patch := <["updated_at" := js_now clk]> updates in
      match answer fault2
              (returning_single (update st clk i userId patch)) with
      | inr _ =>
          (st, Thrown (APIError "Failed to update job application" 500
                                "UPDATE_ERROR"))
      | inl (st', data) =>
          (st', Sent (ok (PJob (Some "Job application updated successfully")
                               data)))
      end
  end.

Definition deleteJob (st : Store) (fault1 fault2 : option PgError)
           (userId i : string) : Store * Outcome :=
  match answer fault1 (single (filter (mine i userId) (jobs st))) with
  | inr _ =>
      (st, Thrown (APIError "Job application not found" 404 "NOT_FOUND"))
  | inl _ =>
      match answer fault2 (delete st i userId) with
      | inr _ =>
          (st, Thrown (APIError "Failed to delete job application" 500
                                "DELETE_ERROR"))
      | inl st' =>
          (st', Sent (ok (PMessage "Job application deleted successfully")))
      end
  end.

(** The number of the selected status values equal to [s]. *)
Definition tally (s : string) (data : list string) : nat :=
  length (filter (fun j => j = s) data).

Definition getJobStats (st : Store) (fault1 fault2 : option PgError)
           (userId : string) : Outcome :=
  let own := filter (fun r => user_id r = userId) (jobs st) in
  match answer fault1 (inl (status <$> own)) with
  | inr _ => Thrown (APIError "Failed to fetch statistics" 500 "STATS_ERROR")
  | inl data =>
      let stats :=
        {| total := length data;
           applied := tally "Applied" data;
           interview := tally "Interview" data;
           rejected := tally "Rejected" data;
           offer := tally "Offer" data |} in
      let recentJobs :=
        match answer fault2 (inl (take 5 (merge_sort created_desc own))) with
        | inl rows => Some rows
        | inr _ => None
        end in
      Sent (ok (PStats stats (default [] recentJobs)))
  end.

(** The routes of [/api/jobs], after [verifyAuth] has set the caller:
    the validators, then the handler. *)
Section Routes.

Variable isISO8601 : string -> bool.
Variable isUUID : string -> bool.

Definition guarded {A} (errors : list FieldError) (next : A * Outcome)
           (unchanged : A) : A * Outcome :=
  match Validator.handleValidationErrors errors with
  | Some r => (unchanged, Sent r)
  | None => next
  end.

Definition get_jobs (st : Store) (fault : option PgError)
           (userId : string) (query : gmap string string) : Outcome :=
  let '(q, errors) := Validator.validateQueryParams query in
  snd (guarded errors (tt, getAllJobs st fault userId q) tt).

Definition get_job (st : Store) (fault : option PgError)
           (userId i : string) : Outcome :=
  snd (guarded (Validator.validateUUID isUUID i)
               (tt, getJobById st fault userId i) tt).


Definition put_job (st : Store) (fault1 fault2 : option PgError)
           (clk : Clock) (userId i : string)
           (body : gmap string string) : Store * Outcome :=
  guarded (Validator.validateUUID isUUID i)
    (let '(b, errors) :=
       Validator.validateUpdateJobApplication isISO8601 body in
     guarded errors (updateJob st fault1 fault2 clk userId i b) st)
    st.

Definition delete_job (st : Store) (fault1 fault2 : option PgError)
           (userId i : string) : Store * Outcome :=
  guarded (Validator.validateUUID isUUID i)
          (deleteJob st fault1 fault2 userId i) st.

End Routes.

End JobController.

(** ** The generative service ([config/openai.js]) *)

Module OpenAI.

(** [apiKey ? new OpenAI({ apiKey }) : null]: whether a client exists. *)
Definition openai (apiKey : option string) : bool := Js.truthy apiKey.

Definition isAIAvailable (apiKey : option string) : bool :=
  openai apiKey && Js.truthy apiKey
  && match apiKey with
     | Some k => Js.startsWith k "sk-"
     | None => false
     end.

(** The request of [chat.completions.create]; the temperature 0.7 is kept
    in tenths. *)
Record ChatRequest := {
  model : string;
  system_content : string;
  user_content : string;
  temperature_tenths : nat;
  max_tokens : nat
}.

Record ChatMessage := { content : option string }.
Record Choice := { message : option ChatMessage }.
Record Completion := { choices : option (list Choice) }.

(** How the awaited call settles. *)
Inductive Settled :=
| Resolved (c : Completion)
| Rejected (e : JsError).

End OpenAI.

(** ** The email controller ([controllers/aiController.js]) *)

Module AiController.

Import OpenAI.

(** A template literal hole: [undefined] prints as its name. *)
Definition show (v : option string) : string := default "undefined" v.

Definition text (lines : list string) : string := Js.join Js.nl lines.

Definition Template : Type :=
  option string -> option string -> option string -> option string
  -> string * string.

Definition cold : Template := fun company role yourName _ =>
  ("Application for " +:+ show role +:+ " at " +:+ show company,
   text [
     "Dear Hiring Manager,";
     "";
     "I hope this email finds you well. My name is " +:+ show yourName
       +:+ ", and I am writing to express my interest in the "
       +:+ show role +:+ " position at " +:+ show company +:+ ".";
     "";
     "I have been following " +:+ show company
       +:+ "'s work and am particularly impressed by your innovative approach to the industry. I believe my skills and experience make me a strong candidate for this role.";
     "";
     "I would welcome the opportunity to discuss how I can contribute to your team. Thank you for considering my application.";
     "";
     "Best regards,";
     show yourName ]).

Definition followup : Template := fun company role yourName _ =>
  ("Follow-up: " +:+ show role +:+ " Application at " +:+ show company,
   text [
     "Dear Hiring Manager,";
     "";
     "I hope you are doing well. I wanted to follow up on my application for the "
       +:+ show role +:+ " position at " +:+ show company
       +:+ " that I submitted recently.";
     "";
     "I remain very interested in this opportunity and would appreciate any update you might have regarding my application status.";
     "";
     "Thank you for your time and consideration.";
     "";
     "Best regards,";
     show yourName ]).

(** [recipientName = 'there'] when the argument is [undefined]. *)
Definition referral : Template := fun company role yourName recipientName =>
  ("Referral Request: " +:+ show role +:+ " at " +:+ show company,
   text [
     "Hi " +:+ default "there" recipientName +:+ ",";
     "";
     "I hope you're having a great day! I noticed that " +:+ show company
       +:+ " has an opening for a " +:+ show role
       +:+ " position, and I was wondering if you might be open to referring me.";
     "";
     "I believe my background would be a good fit for this role, and I would greatly appreciate your support in the application process.";
     "";
     "Please let me know if you need any additional information from me.";
     "";
     "Best regards,";
     show yourName ]).

(** [emailTemplates[type]]: the three own keys of the object; any other
    key is [undefined]. *)
Definition emailTemplates (type : option string) : option Template :=
  match type with
  | Some t =>
      if String.eqb t "cold" then Some cold
      else if String.eqb t "followup" then Some followup
      else if String.eqb t "referral" then Some referral
      else None
  | None => None
  end.

Definition format_as : list string :=
  [ "Format as:"; "Subject: [subject line]"; ""; "[email body]" ].

(** The [switch (type)] that builds the prompt; no case leaves it empty. *)
Definition prompt_of (type : option string)
           (company role yourName : option string) (recipient : string)
  : string :=
  let quoted := Js.dquote +:+ recipient +:+ Js.dquote in
  match type with
  | Some t =>
      if String.eqb t "cold" then
        text ([
          "Write a professional cold email from " +:+ show yourName
            +:+ " applying for the " +:+ show role +:+ " position at "
            +:+ show company +:+ ". ";
          "Address it to " +:+ quoted +:+ ". ";
          "Keep it concise (150-200 words), professional, and engaging. ";
          "Include:";
          "- Brief introduction";
          "- Why they're interested in the company";
          "- Call to action";
          "" ] ++ format_as)
      else if String.eqb t "followup" then
        text ([
          "Write a professional follow-up email from " +:+ show yourName
            +:+ " regarding their application for the " +:+ show role
            +:+ " position at " +:+ show company +:+ ".";
          "Address it to " +:+ quoted +:+ ".";
          "Keep it polite, concise (100-150 words), and professional.";
          "Express continued interest and request an update.";
          "" ] ++ format_as)
      else if String.eqb t "referral" then
        text ([
          "Write a professional email from " +:+ show yourName
            +:+ " requesting a referral for the " +:+ show role
            +:+ " position at " +:+ show company +:+ ".";
          "Address it to " +:+ quoted
            +:+ " (they work at or know someone at the company).";
          "Keep it polite, concise (100-150 words), and make it easy for them to say yes.";
          "" ] ++ format_as)
      else ""
  | None => ""
  end.

Definition chat_request (prompt : string) : ChatRequest :=
  {| model := "gpt-3.5-turbo";
     system_content := "You are a helpful assistant that writes professional job application emails. Be concise, professional, and persuasive.";
     user_content := prompt;
     temperature_tenths := 7;
     max_tokens := 400 |}.

(** [choices[0]?.message?.content] *)
Definition first_content (cs : list Choice) : option string :=
  match cs !! 0%nat with
  | Some choice =>
      match message choice with
      | Some m => content m
      | None => None
      end
  | None => None
  end.

(** [completion.choices[0]?.message?.content?.trim()], then the check that
    throws on an empty text. Reading [choices[0]] of a completion without
    [choices] is a [TypeError]. *)
Definition generatedContent (s : Settled) : string + JsError :=
  match s with
  | Rejected e => inr e
  | Resolved c =>
      match choices c with
      | None =>
          inr (PlainError "Cannot read properties of undefined (reading '0')")
      | Some cs =>
          match option_map Js.trim (first_content cs) with
          | Some (String a g) => inl (String a g)
          | _ => inr (PlainError "Empty response from OpenAI")
          end
      end
  end.

(** [s] without its first [n] characters. *)
Fixpoint skip (n : nat) (s : string) : string :=
  match n, s with
  | S n', String _ s' => skip n' s'
  | _, _ => s
  end.

(** [line.replace(/^subject:\s*/i, '')] *)
Definition strip_subject (line : string) : string :=
  if Js.startsWith (Js.toLowerCase line) "subject:"
  then Js.trimStart (skip 8 line) else line.

(** The loop over [lines] from index [i]: the subject and
    [bodyStartIndex]. *)
Fixpoint extract_subject (lines : list string) (i : nat) : string * nat :=
  match lines with
  | [] => ("", 0%nat)
  | line :: rest =>
      if Js.startsWith (Js.toLowerCase line) "subject:"
      then (Js.trim (strip_subject line), (i + 2)%nat)
      else extract_subject rest (S i)
  end.

(** The parse of the generated text into the data of the response. *)
Definition parsed (company role : option string) (generated : string)
  : Email :=
  let lines := Js.split Js.nl_char generated in
  let '(subj, bodyStartIndex) := extract_subject lines 0 in
  let body := Js.trim (text (drop bodyStartIndex lines)) in
  {| subject := Js.or_else (Some subj)
                  ("Application for " +:+ show role +:+ " at "
                   +:+ show company);
     body := Js.or_else (Some body) generated;
     generated_by := "ai";
     note := None |}.

(** [{ ...template, generated_by: 'template', note }] *)
Definition from_template (t : string * string) (why : string) : Email :=
  {| subject := fst t; body := snd t;
     generated_by := "template"; note := Some why |}.

Definition not_a_function : JsError :=
  PlainError "emailTemplates[type] is not a function".

(** [generateEmail]: what the handler ends in, and the requests it made
    to the generative service [backend], in order. *)
Definition generateEmail (apiKey : option string)
           (backend : ChatRequest -> Settled)
           (body : gmap string string) : Outcome * list ChatRequest :=
  let type := body !! "type" in
  let company_name := body !! "company_name" in
  let role := body !! "role" in
  let recipient_name := body !! "recipient_name" in
  let your_name := body !! "your_name" in
  if negb (isAIAvailable apiKey) then
    match emailTemplates type with
    | None => (Thrown not_a_function, [])
    | Some template =>
        (Sent (ok (PEmail (from_template
           (template company_name role your_name recipient_name)
           "AI generation is currently unavailable. Using template instead."))),
         [])
    end
  else
    let recipient := Js.or_else recipient_name "Hiring Manager" in
    let request :=
      chat_request (prompt_of type company_name role your_name recipient) in
    match generatedContent (backend request) with
    | inl generated =>
        (Sent (ok (PEmail (parsed company_name role generated))), [request])
    | inr _ =>
        match emailTemplates type with
        | None => (Thrown not_a_function, [request])
        | Some template =>
            (Sent (ok (PEmail (from_template
               (template company_name role your_name recipient_name)
               "AI generation encountered an error. Using template instead."))),
             [request])
        end
    end.

(** [getAIStatus] *)
Definition getAIStatus (apiKey : option string) : bool * string :=
  let available := isAIAvailable apiKey in
  (available,
   if available then "AI email generation is available"
   else "AI email generation is unavailable - templates will be used").

(** The route [POST /api/ai/generate-email]. *)
Definition post_generate_email (apiKey : option string)
           (backend : ChatRequest -> Settled)
           (body : gmap string string) : Outcome * list ChatRequest :=
  let '(b, errors) := Validator.validateEmailGeneration body in
  match Validator.handleValidationErrors errors with
  | Some r => (Sent r, [])
  | None => generateEmail apiKey backend b
  end.

End AiController.

(** ** Search patterns *)

Module Pattern.





End Pattern.

(** ** Email drafts: failures and lines *)



(** ** Sample data *)

Module Sample.

Definition alice : string := "a1111111-1111-4111-8111-111111111111".
Definition bob : string := "b2222222-2222-4222-8222-222222222222".

Definition job (i owner company title stat applied made : string) : Row :=
  {| id := i; user_id := owner; company_name := company; role := title;
     status := stat; applied_date := applied; notes := "";
     created_at := made; updated_at := made |}.

Definition google : Row :=
  job "00000000-0000-4000-8000-000000000001" alice "Google"
      "Software Engineering Intern" "Applied" "2024-01-15"
      "2024-01-15T09:00:00+00:00".

Definition microsoft : Row :=
  job "00000000-0000-4000-8000-000000000002" alice "Microsoft"
      "Frontend Developer Intern" "Interview" "2024-01-10"
      "2024-01-16T09:00:00+00:00".

Definition amazon : Row :=
  job "00000000-0000-4000-8000-000000000003" bob "Amazon" "SDE Intern"
      "Rejected" "2024-01-05" "2024-01-17T09:00:00+00:00".

Definition store : Store :=
  {| users := {[alice; bob]}; jobs := [google; microsoft; amazon] |}.

Definition unknown_id : string := "00000000-0000-4000-8000-00000000ffff".

Definition clock : Clock :=
  {| js_now := "2024-02-01T10:00:00.000Z";
     db_now := "2024-02-01T10:00:00.012+00:00";
     db_uuid := "00000000-0000-4000-8000-000000000004" |}.

Definition connection_lost : PgError := {| pg_code := "08006" |}.



Definition email_request : gmap string string :=
  {[ "type" := "referral"; "company_name" := "Acme";
     "role" := "Engineer"; "your_name" := "Dana" ]}.

Definition api_key : option string := Some "sk-test".

(** A service that rejects every call. *)
Definition quota_exceeded (_ : OpenAI.ChatRequest) : OpenAI.Settled :=
  OpenAI.Rejected (PlainError "429 You exceeded your current quota").

Definition completion_text : string :=
  AiController.text
    ["Subject: Hello there"; ""; "Dear team,"; "I am interested."; ""].

Definition one_choice : list OpenAI.Choice :=
  [{| OpenAI.message :=
        Some {| OpenAI.content := Some completion_text |} |}].

(** A service that answers every call with [completion_text]. *)
Definition answering (_ : OpenAI.ChatRequest) : OpenAI.Settled :=
  OpenAI.Resolved {| OpenAI.choices := Some one_choice |}.

End Sample.

(** ** The authentication middleware ([middleware/auth.js]) *)

Module Auth.

(** A user of the identity store, as [auth.getUser] returns it. *)
Record User := {
  uid : string;
  uemail : string
}.

(** [req.user] *)
Record ReqUser := {
  ru_id : string;
  ru_email : string;
  ru_token : string
}.

(** How the awaited [supabaseAuth.auth.getUser(token)] settles: with
    [data.user] and [error], or by an exception (a rejection, or an answer
    without [data]). *)
Inductive GetUser :=
| Answered (user : option User) (error : option string)
| Raised (e : JsError).

(** What a middleware ends in: a response of its own, or [next()] with the
    [req.user] it set. *)
Inductive Gate (A : Type) :=
| Refused (r : Response)
| Next (user : A).

Arguments Refused {A} r.
Arguments Next {A} user.

Definition denied (statusCode : nat) (message code : string) : Response :=
  {| http_status := statusCode; success := false;
     payload := PError message code [] |}.

(** [parts.length !== 2 || parts[0] !== 'Bearer'], and [parts[1]]. *)
Definition bearer_token (authHeader : string) : option string :=
  match Js.split " " authHeader with
  | [scheme; token] => if String.eqb scheme "Bearer" then Some token else None
  | _ => None
  end.

(** [verifyAuth]: the gate, and the tokens it asked the identity store
    about, in order. *)
Definition verifyAuth (getUser : string -> GetUser)
           (authorization : option string)
  : Gate ReqUser * list string :=
  if negb (Js.truthy authorization) then
    (Refused (denied 401 "Access denied. No authorization header provided."
                     "NO_AUTH_HEADER"), [])
  else
    match bearer_token (default "" authorization) with
    | None =>
        (Refused (denied 401
                    "Invalid authorization format. Expected: Bearer <token>"
                    "INVALID_AUTH_FORMAT"), [])
    | Some token =>
        match getUser token with
        | Raised _ =>
            (Refused (denied 500 "Authentication error. Please try again."
                             "AUTH_ERROR"), [token])
        | Answered (Some user) None =>
            (Next {| ru_id := uid user; ru_email := uemail user;
                     ru_token := token |}, [token])
        | Answered _ _ =>
            (Refused (denied 401
                        "Invalid or expired token. Please sign in again."
                        "INVALID_TOKEN"), [token])
        end
    end.

(** [optionalAuth]: always [next()], with [req.user] or [null]. *)
Definition optionalAuth (getUser : string -> GetUser)
           (authorization : option string)
  : option ReqUser * list string :=
  if negb (Js.truthy authorization) then (None, [])
  else
    match bearer_token (default "" authorization) with
    | None => (None, [])
    | Some token =>
        match getUser token with
        | Answered (Some user) None =>
            (Some {| ru_id := uid user; ru_email := uemail user;
                     ru_token := token |}, [token])
        | _ => (None, [token])
        end
    end.

End Auth.

(** ** The account controller ([controllers/authController.js]) *)

Module AuthController.

(** [deleteAccount]: the caller's rows are deleted, then the account;
    [fault1] is the store's error on the first call, [fault2] the identity
    store's on the second. Deleting the account removes the rows that
    reference it ([ON DELETE CASCADE]). *)
Definition deleteAccount (st : Store) (fault1 : option PgError)
           (fault2 : option string) (userId : string) : Store * Outcome :=
  match Pg.answer fault1
          (inl (filter (fun r => user_id r ≠ userId) (jobs st))) with
  | inr _ =>
      (st, Thrown (APIError "Failed to delete user data" 500 "DELETE_ERROR"))
  | inl rest =>
      match fault2 with
      | Some _ =>
          ({| users := users st; jobs := rest |},
           Thrown (APIError "Failed to delete user account" 500
                            "DELETE_ERROR"))
      | None =>
          ({| users := users st ∖ {[userId]};
              jobs := filter (fun r => user_id r ≠ userId) rest |},
           Sent (ok (PMessage "Account deleted successfully")))
      end
  end.

End AuthController.

(** ** Well-formed stores and texts *)

(** The constraints of the schema on the table: the primary key, the foreign
    key of [user_id] and the [CHECK] on [status]. *)
Definition consistent (st : Store) : Prop :=
  NoDup (id <$> jobs st)
  ∧ Forall (fun r => user_id r ∈ users st ∧ status r ∈ statuses) (jobs st).

(** The character [c] occurs in [s]. *)
Fixpoint occurs (c : ascii) (s : string) : bool :=
  match s with
  | EmptyString => false
  | String d s' => Ascii.eqb d c || occurs c s'
  end.



(** The body [validateJobApplication] hands on to the handler. *)
Definition sanitized (isISO8601 : string -> bool)
           (body : gmap string string) : gmap string string :=
  (Validator.validateJobApplication isISO8601 body).1.


(** * Properties *)

(** ** The orders of the listings *)

Lemma string_leb_trans (a b c : string) :
  String.leb a b = true -> String.leb b c = true -> String.leb a c = true.
Proof.
  unfold String.leb. revert b c.
  induction a as [|x a IH]; intros [|y b] [|z c]; simpl; try done.
  unfold Ascii.compare.
  destruct (N.compare_spec (N_of_ascii x) (N_of_ascii y));
    destruct (N.compare_spec (N_of_ascii y) (N_of_ascii z));
    destruct (N.compare_spec (N_of_ascii x) (N_of_ascii z));
    try done; try lia; eauto.
Qed.

Lemma applied_desc_total : Total Pg.applied_desc.
Proof. intros r1 r2. unfold Pg.applied_desc. apply String.leb_total. Qed.

Lemma applied_desc_trans : Transitive Pg.applied_desc.
Proof.
  intros r1 r2 r3 H12 H23. unfold Pg.applied_desc in *.
  eapply string_leb_trans; eassumption.
Qed.

Lemma created_desc_total : Total Pg.created_desc.
Proof. intros r1 r2. unfold Pg.created_desc. apply String.leb_total. Qed.

Lemma created_desc_trans : Transitive Pg.created_desc.
Proof.
  intros r1 r2 r3 H12 H23. unfold Pg.created_desc in *.
  eapply string_leb_trans; eassumption.
Qed.

#[global] Existing Instance applied_desc_total.
#[global] Existing Instance applied_desc_trans.
#[global] Existing Instance created_desc_total.
#[global] Existing Instance created_desc_trans.


(** ** Ownership of the rows a request reaches *)

Section Ownership.

Import Pg JobController.

(** With a primary key, the rows of an identifier owned by somebody else
    are none for the caller. *)
Lemma mine_none_of_other (rows : list Row) (R : Row) (B : string) :
  NoDup (id <$> rows) -> R ∈ rows -> user_id R ≠ B ->
  filter (mine (id R) B) rows = [].
Proof.
  intros Hnd HR HB.
  induction rows as [|r rows IH]; [done|].
  rewrite fmap_cons, NoDup_cons in Hnd. destruct Hnd as [Hr Hnd].
  apply elem_of_cons in HR as [->|HR].
  - rewrite filter_cons_False by (by intros [_ Hu]).
    destruct (filter (mine (id r) B) rows) as [|r' rest] eqn:Hf; [done|].
    exfalso. apply Hr.
    assert (Hin : r' ∈ filter (mine (id r) B) rows)
      by (rewrite Hf; left).
    apply list_elem_of_filter in Hin as [[Hid _] Hin].
    rewrite <- Hid. by apply list_elem_of_fmap_2.
  - rewrite filter_cons_False; [by apply IH|].
    intros [Hid _]. apply Hr. rewrite Hid. by apply list_elem_of_fmap_2.
Qed.

Lemma mine_none_of_absent (rows : list Row) (i B : string) :
  i ∉ (id <$> rows) -> filter (mine i B) rows = [].
Proof.
  intros Hi. induction rows as [|r rows IH]; [done|].
  rewrite fmap_cons, not_elem_of_cons in Hi. destruct Hi as [Hne Hi].
  rewrite filter_cons_False; [by apply IH|].
  intros [Hid _]. by apply Hne.
Qed.

Lemma getJobById_none (st : Store) (f : option PgError) (B i j : string) :
  filter (mine i B) (jobs st) = [] -> filter (mine j B) (jobs st) = [] ->
  getJobById st f B i = getJobById st f B j.
Proof. intros Hi Hj. unfold getJobById. by rewrite Hi, Hj. Qed.

Lemma deleteJob_none (st : Store) (f1 f2 : option PgError) (B i : string) :
  filter (mine i B) (jobs st) = [] ->
  deleteJob st f1 f2 B i
  = (st, Thrown (APIError "Job application not found" 404 "NOT_FOUND")).
Proof. intros Hi. unfold deleteJob. rewrite Hi. by destruct f1. Qed.

End Ownership.

(** ** Get and delete by identifier *)

(** C2. A record [R] of another user: for the caller [B] a get or a delete
    by the identifier of [R] ends as for an identifier [ghost] of no record,
    in the 404 [NOT_FOUND] answer, and the delete leaves the store, with
    [R], as it was. The identifiers of the table are unique (its primary
    key). *)
Theorem foreign_record_is_not_found
        (st : Store) (f1 f2 : option PgError) (R : Row) (B ghost : string)
        (dev : bool) :
  NoDup (id <$> jobs st) -> R ∈ jobs st -> user_id R ≠ B ->
  ghost ∉ (id <$> jobs st) ->
  JobController.getJobById st None B (id R)
  = Thrown (APIError "Job application not found" 404 "NOT_FOUND")
  ∧ respond dev (JobController.getJobById st None B (id R))
    = {| http_status := 404; success := false;
         payload := PError "Job application not found" "NOT_FOUND" [] |}
  ∧ JobController.getJobById st f1 B (id R)
    = JobController.getJobById st f1 B ghost
  ∧ JobController.deleteJob st f1 f2 B (id R)
    = (st, Thrown (APIError "Job application not found" 404 "NOT_FOUND"))
  ∧ JobController.deleteJob st f1 f2 B (id R)
    = JobController.deleteJob st f1 f2 B ghost.
Proof.
  intros Hnd HR HB Hghost.
  pose proof (mine_none_of_other _ _ _ Hnd HR HB) as Hnone.
  pose proof (mine_none_of_absent _ _ B Hghost) as Hnone'.
  assert (Hget : JobController.getJobById st None B (id R)
                 = Thrown (APIError "Job application not found" 404
                                    "NOT_FOUND")).
  { unfold JobController.getJobById. by rewrite Hnone. }
  repeat split.
  - exact Hget.
  - rewrite Hget. by destruct dev.
  - by apply getJobById_none.
  - by apply deleteJob_none.
  - by rewrite !deleteJob_none.
Qed.

(** At the sample store: Bob asks for Alice's record and for an identifier
    of no record. *)
Lemma foreign_record_is_not_found_witness :
  (NoDup (id <$> jobs Sample.store)
   ∧ Sample.google ∈ jobs Sample.store
   ∧ user_id Sample.google ≠ Sample.bob
   ∧ Sample.unknown_id ∉ (id <$> jobs Sample.store))
  ∧ JobController.getJobById Sample.store None Sample.bob (id Sample.google)
    = JobController.getJobById Sample.store None Sample.bob Sample.unknown_id
  ∧ JobController.deleteJob Sample.store None None Sample.bob
      (id Sample.google)
    = (Sample.store,
       Thrown (APIError "Job application not found" 404 "NOT_FOUND")).
Proof.
  assert (H1 : NoDup (id <$> jobs Sample.store))
    by (apply (bool_decide_unpack _); vm_compute; exact I).
  assert (H2 : Sample.google ∈ jobs Sample.store)
    by (apply (bool_decide_unpack _); vm_compute; exact I).
  assert (H3 : user_id Sample.google ≠ Sample.bob) by discriminate.
  assert (H4 : Sample.unknown_id ∉ (id <$> jobs Sample.store))
    by (apply (bool_decide_unpack _); vm_compute; exact I).
  split; [done|].
  destruct (foreign_record_is_not_found Sample.store None None Sample.google
              Sample.bob Sample.unknown_id false H1 H2 H3 H4)
    as (_ & _ & Hget & Hdel & _).
  split; [exact Hget | exact Hdel].
Defined.

(** ** Statistics *)

Section StatsFacts.

Import Pg JobController.

(** A tally over the selected status column counts the caller's rows of
    that status. *)
Lemma tally_counts (s userId : string) (rows : list Row) :
  tally s (status <$> filter (fun r => user_id r = userId) rows)
  = length (filter (fun r => status r = s ∧ user_id r = userId) rows).
Proof.
  unfold tally. rewrite <- list_filter_filter.
  induction (filter (fun r => user_id r = userId) rows) as [|r l IH];
    [done|].
  rewrite fmap_cons, !filter_cons.
  destruct (decide (status r = s)); simpl; by rewrite IH.
Qed.

(** The first rows of a sorted listing come before all the others. *)
Lemma newest_first (n : nat) (rows : list Row) :
  let listed := merge_sort created_desc rows in
  take n listed ++ drop n listed ≡ₚ rows
  ∧ StronglySorted created_desc (take n listed)
  ∧ forall r o, r ∈ take n listed -> o ∈ drop n listed -> created_desc r o.
Proof.
  intros listed.
  assert (Hs : StronglySorted created_desc listed)
    by (apply StronglySorted_merge_sort; apply _).
  rewrite <- (take_drop n listed) in Hs.
  split; [|split].
  - rewrite take_drop. apply merge_sort_Permutation.
  - by apply StronglySorted_app_1_l in Hs.
  - intros r o Hr Ho. by eapply StronglySorted_app_1_elem_of.
Qed.

End StatsFacts.

(** C9. With the store answering both queries, the statistics of a caller
    are the number of the caller's records, the number of them in each of
    the four statuses, and the first five of the caller's records listed by
    creation time, newest first: every record left out was created no later
    than each one listed. *)
Theorem stats_of_caller (st : Store) (userId : string) :
  let own := filter (fun r => user_id r = userId) (jobs st) in
  let count s :=
    length (filter (fun r => status r = s ∧ user_id r = userId) (jobs st)) in
  exists recent older : list Row,
    JobController.getJobStats st None None userId
    = Sent (ok (PStats {| total := length own;
                          applied := count "Applied";
                          interview := count "Interview";
                          rejected := count "Rejected";
                          offer := count "Offer" |} recent))
    ∧ recent ++ older ≡ₚ own
    ∧ length recent = (5 `min` length own)%nat
    ∧ StronglySorted Pg.created_desc recent
    ∧ forall r o, r ∈ recent -> o ∈ older -> Pg.created_desc r o.
Proof.
  intros own count.
  exists (take 5 (merge_sort Pg.created_desc own)),
         (drop 5 (merge_sort Pg.created_desc own)).
  destruct (newest_first 5 own) as (Hperm & Hsorted & Hnewer).
  split; [|split; [exact Hperm|split; [|split; [exact Hsorted|exact Hnewer]]]].
  - unfold JobController.getJobStats; simpl.
    rewrite !tally_counts, length_fmap. reflexivity.
  - rewrite length_take. f_equal.
    apply Permutation_length, merge_sort_Permutation.
Qed.

(** The example of the specification: three [Applied], one [Interview], no
    [Rejected] and one [Offer] record of the caller, among the records of
    another user. *)
Example stats_example :
  let mine s n :=
    Sample.job n Sample.alice "Acme" "Engineer" s "2024-01-15" n in
  let st := {| users := {[Sample.alice; Sample.bob]};
               jobs := [mine "Applied" "1"; Sample.amazon;
                        mine "Interview" "2"; mine "Applied" "3";
                        mine "Offer" "4"; mine "Applied" "5"] |} in
  exists recent,
    JobController.getJobStats st None None Sample.alice
    = Sent (ok (PStats {| total := 5; applied := 3; interview := 1;
                          rejected := 0; offer := 1 |} recent)).
Proof. eexists. vm_compute. reflexivity. Qed.

(** C5, as the claim states it, fails: the store fails on the query of the
    recent records and the caller gets a success with an empty list. *)
Lemma recent_failure_is_not_surfaced :
  respond false
    (JobController.getJobStats Sample.store None (Some Sample.connection_lost)
       Sample.alice)
  = {| http_status := 200; success := true;
       payload := PStats {| total := 2; applied := 1; interview := 1;
                            rejected := 0; offer := 0 |} [] |}.
Proof. vm_compute. reflexivity. Qed.

(** C5, amended. An error of the store on the query of the status counts is
    surfaced as [STATS_ERROR] with status 500, with the handler's message in
    development and the generic one otherwise; an error on the query of the
    recent records is not: the answer is the success with the statistics of
    the caller and no recent record. *)
Theorem stats_error_surfaced_for_counts
        (st : Store) (userId : string) (e : PgError) (fault2 : option PgError)
        (dev : bool) :
  let count s :=
    length (filter (fun r => status r = s ∧ user_id r = userId) (jobs st)) in
  JobController.getJobStats st (Some e) fault2 userId
  = Thrown (APIError "Failed to fetch statistics" 500 "STATS_ERROR")
  ∧ respond dev (JobController.getJobStats st (Some e) fault2 userId)
    = {| http_status := 500; success := false;
         payload := PError (if dev then "Failed to fetch statistics"
                            else "Internal server error")
                           "STATS_ERROR" [] |}
  ∧ JobController.getJobStats st None (Some e) userId
    = Sent {| http_status := 200; success := true;
              payload :=
                PStats {| total :=
                            length (filter (fun r => user_id r = userId)
                                           (jobs st));
                          applied := count "Applied";
                          interview := count "Interview";
                          rejected := count "Rejected";
                          offer := count "Offer" |} [] |}.
Proof.
  intros count. split; [reflexivity|split].
  - by destruct dev.
  - unfold JobController.getJobStats; simpl.
    by rewrite !tally_counts, length_fmap.
Qed.

(** ** Listing *)

(** C10. In a successful list response, [hasMore] holds exactly when the
    offset plus the number of records of the page is below the total number
    of matching records. *)
Theorem hasMore_iff
        (st : Store) (fault : option PgError) (userId : string)
        (query : gmap string string) (data : list Row) (pg : Pagination) :
  JobController.getAllJobs st fault userId query = Sent (ok (PJobs data pg)) ->
  exists offset : Z,
    pg_offset pg = Some offset
    ∧ pg_total pg
      = Z.of_nat (length (filter
          (fun r => JobController.matches userId (query !! "status")
                      (query !! "search") r) (jobs st)))
    ∧ (hasMore pg = true <-> offset + Z.of_nat (length data) < pg_total pg).
Proof.
  unfold JobController.getAllJobs.
  destruct fault as [e|]; simpl; [done|].
  destruct (Js.parseInt (default "0" (query !! "offset"))) as [o|];
    simpl; [|done].
  destruct (Js.parseInt (default "50" (query !! "limit"))) as [l|];
    simpl; [|done].
  destruct ((0 <=? o) && (o - 1 <=? o + l - 1)); [|done].
  intros [= <- <-]; simpl.
  exists o. split; [done|split; [done|]].
  apply Z.ltb_lt.
Qed.

(** At the sample store: the first page of one of Alice's two records. *)
Lemma hasMore_iff_witness :
  let pg := {| pg_total := 2; pg_limit := Some 1; pg_offset := Some 0;
               hasMore := true |} in
  JobController.getAllJobs Sample.store None Sample.alice {["limit" := "1"]}
  = Sent (ok (PJobs [Sample.google] pg))
  ∧ exists offset : Z, pg_offset pg = Some offset ∧ offset + 1 < 2.
Proof.
  intros pg.
  assert (H : JobController.getAllJobs Sample.store None Sample.alice
                {["limit" := "1"]}
              = Sent (ok (PJobs [Sample.google] pg)))
    by (vm_compute; reflexivity).
  split; [exact H|].
  destruct (hasMore_iff _ _ _ _ _ _ H) as (o & Ho & _ & Hiff).
  exists o. split; [exact Ho|]. by apply Hiff.
Defined.

Section LikeFacts.

Import Pg Pattern.














End LikeFacts.

(** ** What a validated list request returns *)

Section ListFacts.

Import Pg Pattern JobController.

Lemma check_nil (passed : bool) (field msg : string) :
  Validator.check passed field msg = [] -> passed = true.
Proof. by destruct passed. Qed.






End ListFacts.

(** C8, at the search term [g_o]: the validated request lists the caller's
    record of the company Google, whose company name and role do not
    contain the term. The character [_] of the term is read by the pattern
    [%g_o%] as any one character. *)
Theorem search_wildcard_lists_non_substring :
  exists pg,
    JobController.get_jobs Sample.store None Sample.alice
      {["search" := "g_o"]}
    = Sent (ok (PJobs [Sample.google] pg))
    ∧ Js.includes (Js.toLowerCase (company_name Sample.google))
        (Js.toLowerCase "g_o") = false
    ∧ Js.includes (Js.toLowerCase (role Sample.google))
        (Js.toLowerCase "g_o") = false.
Proof. eexists. vm_compute. repeat split; reflexivity. Qed.

(** ** Update *)

(** C1, at an update whose body names another owner: the body passes
    [validateUpdateJobApplication] unchanged, the handler answers with a
    success, and the stored record, which belonged to the caller, now
    belongs to the user the body names. *)
Theorem update_reassigns_owner (isISO8601 : string -> bool) :
  let body : gmap string string := {["user_id" := Sample.bob]} in
  let moved :=
    {| id := id Sample.google; user_id := Sample.bob;
       company_name := "Google"; role := "Software Engineering Intern";
       status := "Applied"; applied_date := "2024-01-15"; notes := "";
       created_at := "2024-01-15T09:00:00+00:00";
       updated_at := db_now Sample.clock |} in
  let result :=
    JobController.updateJob Sample.store None None Sample.clock Sample.alice
      (id Sample.google) body in
  user_id Sample.google = Sample.alice
  ∧ Validator.validateUpdateJobApplication isISO8601 body = (body, [])
  ∧ jobs result.1 = [moved; Sample.microsoft; Sample.amazon]
  ∧ result.2
    = Sent (ok (PJob (Some "Job application updated successfully") moved)).
Proof.
  intros body moved result.
  split; [reflexivity|split; [reflexivity|]].
  split; vm_compute; reflexivity.
Qed.

(** ** Create *)

Section CreateFacts.

Import Pg JobController.

Variable isISO8601 : string -> bool.


End CreateFacts.


(** ** Email drafts *)

Section EmailFacts.

Import OpenAI AiController.


(** The three templates give a subject and a body that are not empty. *)
Lemma template_not_empty (type : option string) (t : Template)
      (company title yourName recipient : option string) :
  emailTemplates type = Some t ->
  (0 < String.length (t company title yourName recipient).1)%nat
  ∧ (0 < String.length (t company title yourName recipient).2)%nat.
Proof.
  unfold emailTemplates. destruct type as [ty|]; [|done].
  repeat case_match; intros [= <-]; simpl; split; lia.
Qed.

(** The facts a body that passed [validateEmailGeneration] carries. *)
Lemma validated_email (req b : gmap string string) :
  Validator.validateEmailGeneration req = (b, []) ->
  exists t, emailTemplates (b !! "type") = Some t.
Proof.
  unfold Validator.validateEmailGeneration. intros [= Hb Herr].
  rewrite Hb in Herr.
  apply app_eq_nil in Herr as [Htype _].
  apply app_eq_nil in Htype as [_ Htype].
  apply check_nil in Htype. apply bool_decide_eq_true in Htype.
  destruct (b !! "type") as [ty|]; simpl in Htype.
  - rewrite !elem_of_cons, elem_of_nil in Htype.
    destruct Htype as [->|[->|[->|[]]]]; simpl; eauto.
  - exfalso. rewrite !elem_of_cons, elem_of_nil in Htype.
    by destruct Htype as [?|[?|[?|[]]]].
Qed.


End EmailFacts.



(** ** The parse of a generated email *)

Section ParseFacts.

Import OpenAI AiController.











End ParseFacts.






(** * Further properties of the code *)

(** ** Texts: trimming, splitting and joining *)

Section TextFacts.

Lemma trimStart_head (s : string) :
  match Js.trimStart s with
  | EmptyString => True
  | String c _ => Js.is_ws c = false
  end.
Proof.
  induction s as [|c s IH]; [done|]. simpl.
  destruct (Js.is_ws c) eqn:E; [exact IH|done].
Qed.

Lemma trimStart_fixed (c : ascii) (s : string) :
  Js.is_ws c = false -> Js.trimStart (String c s) = String c s.
Proof. intros H. simpl. by rewrite H. Qed.

Lemma trimEnd_head (c : ascii) (s : string) :
  Js.is_ws c = false -> exists t, Js.trimEnd (String c s) = String c t.
Proof.
  intros H. simpl. destruct (Js.trimEnd s); [rewrite H|]; eauto.
Qed.

Lemma trimEnd_idem (s : string) : Js.trimEnd (Js.trimEnd s) = Js.trimEnd s.
Proof.
  induction s as [|c s IH]; [done|]. simpl.
  destruct (Js.trimEnd s) as [|d t] eqn:E.
  - destruct (Js.is_ws c) eqn:Hc; [done|]. simpl. by rewrite Hc.
  - change (Js.trimEnd (String c (String d t)))
      with (match Js.trimEnd (String d t) with
            | EmptyString =>
                if Js.is_ws c then EmptyString else String c EmptyString
            | u => String c u
            end).
    by rewrite IH.
Qed.

(** Trimming a trimmed text changes nothing. *)
Lemma trim_idem (s : string) : Js.trim (Js.trim s) = Js.trim s.
Proof.
  unfold Js.trim.
  pose proof (trimStart_head s) as Hhead.
  destruct (Js.trimStart s) as [|c u]; [done|].
  destruct (trimEnd_head c u Hhead) as [t Ht].
  rewrite Ht, trimStart_fixed by done.
  rewrite <- Ht. apply trimEnd_idem.
Qed.

Lemma split_not_nil (c : ascii) (s : string) : Js.split c s ≠ [].
Proof.
  induction s as [|a s IH]; [done|]. simpl.
  destruct (Ascii.eqb a c); [done|]. by destruct (Js.split c s).
Qed.


Lemma split_without (c : ascii) (s : string) :
  occurs c s = false -> Js.split c s = [s].
Proof.
  induction s as [|a s IH]; [done|]. simpl.
  intros H. apply orb_false_elim in H as [Ha Hs].
  by rewrite Ha, IH.
Qed.

Lemma split_at_first (c : ascii) (a b : string) :
  occurs c a = false ->
  Js.split c (a +:+ String c b) = a :: Js.split c b.
Proof.
  induction a as [|x a IH]; simpl.
  - intros _. by rewrite Ascii.eqb_refl.
  - intros H. apply orb_false_elim in H as [Hx Ha].
    by rewrite Hx, IH.
Qed.

Lemma split_single (c : ascii) (s a : string) :
  Js.split c s = [a] -> s = a ∧ occurs c a = false.
Proof.
  revert a. induction s as [|x s IH]; intros a; simpl.
  - by intros [= <-].
  - destruct (Ascii.eqb x c) eqn:E.
    + intros [= _ H]. by destruct (split_not_nil c s).
    + destruct (Js.split c s) as [|l ls] eqn:Hs;
        [by destruct (split_not_nil c s)|].
      intros [= <- ->]. destruct (IH l eq_refl) as [-> Hl].
      split; [done|]. simpl. by rewrite E.
Qed.

Lemma split_more (c : ascii) (s a b : string) (rest : list string) :
  Js.split c s = a :: b :: rest ->
  exists s', s = a +:+ String c s' ∧ occurs c a = false
             ∧ Js.split c s' = b :: rest.
Proof.
  revert a. induction s as [|x s IH]; intros a; simpl; [done|].
  destruct (Ascii.eqb x c) eqn:E.
  - apply Ascii.eqb_eq in E as ->. intros [= <- H]. by exists s.
  - destruct (Js.split c s) as [|l ls] eqn:Hs;
      [by destruct (split_not_nil c s)|].
    intros [= <- ->].
    destruct (IH l eq_refl) as (s' & -> & Hl & Hs').
    exists s'. repeat split; [|done]. simpl. by rewrite E.
Qed.

End TextFacts.

(** ** The authentication middleware *)

Section AuthFacts.

Import Auth.

(** The header texts [verifyAuth] takes a token from: the word [Bearer], one
    space, and a token without a space. *)
Lemma bearer_token_iff (h token : string) :
  bearer_token h = Some token
  <-> h = "Bearer " +:+ token ∧ occurs " " token = false.
Proof.
  unfold bearer_token. split.
  - destruct (Js.split " " h) as [|a [|b [|c rest]]] eqn:Hs; try done.
    destruct (String.eqb a "Bearer") eqn:Ha; [|done].
    apply String.eqb_eq in Ha as ->. intros [= ->].
    apply split_more in Hs as (s' & -> & _ & Hs').
    apply split_single in Hs' as [-> Hocc]. done.
  - intros [-> Hocc].
    change ("Bearer " +:+ token) with ("Bearer" +:+ String " " token).
    rewrite split_at_first by done.
    by rewrite split_without.
Qed.

End AuthFacts.

(** X1. [verifyAuth] lets a request through exactly when its header is the
    word [Bearer], one space and a token without a space, and the identity
    store answers for that token with a user and no error; [req.user] is then
    that user's id and email with the token, and the identity store was
    asked once, about that token. *)
Theorem verifyAuth_admits
        (getUser : string -> Auth.GetUser) (authorization : option string)
        (u : Auth.ReqUser) :
  (Auth.verifyAuth getUser authorization).1 = Auth.Next u
  <-> exists (token : string) (usr : Auth.User),
        authorization = Some ("Bearer " +:+ token)
        ∧ occurs " " token = false
        ∧ getUser token = Auth.Answered (Some usr) None
        ∧ u = {| Auth.ru_id := Auth.uid usr; Auth.ru_email := Auth.uemail usr;
                 Auth.ru_token := token |}
        ∧ (Auth.verifyAuth getUser authorization).2 = [token].
Proof.
  unfold Auth.verifyAuth. split.
  - destruct authorization as [[|c h]|]; simpl; try done.
    destruct (Auth.bearer_token (String c h)) as [token|] eqn:Hb; [|done].
    apply bearer_token_iff in Hb as [Hh Hocc].
    destruct (getUser token) as [[usr|] [e|]|e] eqn:Hg; simpl; try done.
    intros [= <-]. exists token, usr. by rewrite Hh.
  - intros (token & usr & -> & Hocc & Hg & -> & _).
    assert (Hb : Auth.bearer_token ("Bearer " +:+ token) = Some token)
      by (by apply bearer_token_iff).
    remember ("Bearer " +:+ token) as h eqn:Hh.
    destruct h as [|c h]; [done|]. simpl.
    by rewrite Hb, Hg.
Qed.

(** X2. A request [verifyAuth] refuses gets no success: the status is 401,
    or 500 exactly when the call of the identity store raised; and the
    identity store is asked at most once, only about the token of a header
    of the form [Bearer <token>]. *)
Theorem verifyAuth_refuses
        (getUser : string -> Auth.GetUser) (authorization : option string) :
  let gate := (Auth.verifyAuth getUser authorization).1 in
  let asked := (Auth.verifyAuth getUser authorization).2 in
  (asked = []
   ∨ exists token, authorization = Some ("Bearer " +:+ token)
                   ∧ asked = [token])
  ∧ forall r, gate = Auth.Refused r ->
      success r = false
      ∧ (http_status r = 401%nat ∨ http_status r = 500%nat)
      ∧ (http_status r = 500%nat
         <-> exists token e, asked = [token] ∧ getUser token = Auth.Raised e).
Proof.
  unfold Auth.verifyAuth.
  assert (Hquiet : forall r0 : Response,
            http_status r0 = 401%nat -> success r0 = false ->
            ([] = @nil string
             ∨ exists token, authorization = Some ("Bearer " +:+ token)
                             ∧ [] = [token])
            ∧ forall r, @Auth.Refused Auth.ReqUser r0 = Auth.Refused r ->
                success r = false
                ∧ (http_status r = 401%nat ∨ http_status r = 500%nat)
                ∧ (http_status r = 500%nat
                   <-> exists token e,
                         [] = [token] ∧ getUser token = Auth.Raised e)).
  { intros r0 H401 Hfail. split; [by left|]. intros r [= <-].
    split; [done|split; [by left|]]. rewrite H401. split; [done|].
    by intros (t & e & H & _). }
  destruct authorization as [[|c h]|]; simpl; try by apply Hquiet.
  destruct (Auth.bearer_token (String c h)) as [token|] eqn:Hb;
    simpl; [|by apply Hquiet].
  apply bearer_token_iff in Hb as [Hh Hocc].
  assert (Hasked : exists t, Some (String c h) = Some ("Bearer " +:+ t)
                             ∧ [token] = [t])
    by (exists token; by rewrite Hh).
  destruct (getUser token) as [[usr|] [e|]|e] eqn:Hg; simpl;
    (split; [by right|]); intros r H; try discriminate H;
    injection H as <-; simpl; (split; [done|]).
  - split; [by left|]. split; [done|].
    intros (t & e' & [= <-] & He). congruence.
  - split; [by left|]. split; [done|].
    intros (t & e' & [= <-] & He). congruence.
  - split; [by left|]. split; [done|].
    intros (t & e' & [= <-] & He). congruence.
  - split; [by right|]. split; [|done]. intros _. by exists token, e.
Qed.

(** X3. [optionalAuth] never refuses, and it sets [req.user] exactly when
    [verifyAuth] lets the same request through, to the same user; both ask
    the identity store about the same tokens. *)
Theorem optionalAuth_agrees
        (getUser : string -> Auth.GetUser) (authorization : option string) :
  (Auth.optionalAuth getUser authorization).1
  = match (Auth.verifyAuth getUser authorization).1 with
    | Auth.Next u => Some u
    | Auth.Refused _ => None
    end
  ∧ (Auth.optionalAuth getUser authorization).2
    = (Auth.verifyAuth getUser authorization).2.
Proof.
  unfold Auth.optionalAuth, Auth.verifyAuth.
  destruct (negb (Js.truthy authorization)); [done|].
  destruct (Auth.bearer_token _) as [token|]; [|done].
  by destruct (getUser token) as [[usr|] [e|]|e].
Qed.

(** ** The table under the job controller *)

Section TableFacts.

Import Pg JobController.

(** With a primary key, the rows of an identifier for its owner are the
    record itself. *)
Lemma mine_own (rows : list Row) (R : Row) :
  NoDup (id <$> rows) -> R ∈ rows ->
  filter (mine (id R) (user_id R)) rows = [R].
Proof.
  intros Hnd HR. induction rows as [|r rows IH]; [by apply elem_of_nil in HR|].
  rewrite fmap_cons, NoDup_cons in Hnd. destruct Hnd as [Hr Hnd].
  apply elem_of_cons in HR as [->|HR].
  - rewrite filter_cons_True by done.
    by rewrite (mine_none_of_absent rows (id r) (user_id r) Hr).
  - rewrite filter_cons_False; [by apply IH|].
    intros [Hid _]. apply Hr. rewrite Hid. by apply list_elem_of_fmap_2.
Qed.

(** What a successful [update] wrote. *)
Lemma update_inl (st st' : Store) (clk : Clock) (i userId : string)
      (patch : gmap string string) (written : list Row) :
  update st clk i userId patch = inl (st', written) ->
  let write r := update_updated_at_column clk (assign patch r) in
  written = write <$> filter (mine i userId) (jobs st)
  ∧ users st' = users st
  ∧ jobs st'
    = (fun r => if decide (mine i userId r) then write r else r) <$> jobs st
  ∧ Forall (fun r => user_id r ∈ users st) written
  ∧ Forall (fun r => status r ∈ statuses) written
  ∧ NoDup (id <$> jobs st').
Proof.
  unfold update.
  destruct (negb (bool_decide (dom patch ⊆ list_to_set columns)));
    [done|].
  case_bool_decide as Hfk; simpl; [|done].
  case_bool_decide as Hck; simpl; [|done].
  case_bool_decide as Hpk; simpl; [|done].
  by intros [= <- <-].
Qed.

(** What a handler that wrote one row got back. *)
Lemma returning_single_inl (w : Store * list Row + PgError)
      (st' : Store) (r : Row) :
  returning_single w = inl (st', r) -> w = inl (st', [r]).
Proof.
  destruct w as [[s [|x [|y l]]]|e]; simpl; try done.
  by intros [= -> ->].
Qed.



End TableFacts.

(** ** Update and delete by identifier *)

(** X4. An update of a record of another user ends in the 404 [NOT_FOUND]
    answer whatever the body holds and whatever the store answers, and
    nothing is written. The identifiers of the table are unique. *)
Theorem foreign_update_is_not_found
        (st : Store) (f1 f2 : option PgError) (clk : Clock) (R : Row)
        (B : string) (updates : gmap string string) :
  NoDup (id <$> jobs st) -> R ∈ jobs st -> user_id R ≠ B ->
  JobController.updateJob st f1 f2 clk B (id R) updates
  = (st, Thrown (APIError "Job application not found" 404 "NOT_FOUND")).
Proof.
  intros Hnd HR HB. unfold JobController.updateJob.
  rewrite (mine_none_of_other _ _ _ Hnd HR HB). by destruct f1.
Qed.

(** At the sample store: Bob names himself owner of Alice's record. *)
Lemma foreign_update_is_not_found_witness :
  (NoDup (id <$> jobs Sample.store)
   ∧ Sample.google ∈ jobs Sample.store
   ∧ user_id Sample.google ≠ Sample.bob)
  ∧ JobController.updateJob Sample.store None None Sample.clock Sample.bob
      (id Sample.google) {["user_id" := Sample.bob]}
    = (Sample.store,
       Thrown (APIError "Job application not found" 404 "NOT_FOUND")).
Proof.
  assert (H1 : NoDup (id <$> jobs Sample.store))
    by (apply (bool_decide_unpack _); vm_compute; exact I).
  assert (H2 : Sample.google ∈ jobs Sample.store)
    by (apply (bool_decide_unpack _); vm_compute; exact I).
  assert (H3 : user_id Sample.google ≠ Sample.bob) by discriminate.
  split; [done|].
  exact (foreign_update_is_not_found Sample.store None None Sample.clock
           Sample.google Sample.bob {["user_id" := Sample.bob]} H1 H2 H3).
Defined.

(** X5. For a record the caller owns, an error of the store on the
    ownership check of an update or a delete is reported as 404
    [NOT_FOUND], with nothing written, although a get of the same record
    succeeds when the store answers; the get reports an error of the store
    other than [PGRST116] as 500 [FETCH_ERROR]. *)
Theorem ownership_check_failure_is_not_found
        (st : Store) (e : PgError) (f2 : option PgError) (clk : Clock)
        (R : Row) (updates : gmap string string) :
  NoDup (id <$> jobs st) -> R ∈ jobs st -> pg_code e ≠ "PGRST116" ->
  JobController.getJobById st None (user_id R) (id R)
  = Sent (ok (PJob None R))
  ∧ JobController.getJobById st (Some e) (user_id R) (id R)
    = Thrown (APIError "Failed to fetch job application" 500 "FETCH_ERROR")
  ∧ JobController.updateJob st (Some e) f2 clk (user_id R) (id R) updates
    = (st, Thrown (APIError "Job application not found" 404 "NOT_FOUND"))
  ∧ JobController.deleteJob st (Some e) f2 (user_id R) (id R)
    = (st, Thrown (APIError "Job application not found" 404 "NOT_FOUND")).
Proof.
  intros Hnd HR He. repeat split.
  - unfold JobController.getJobById. by rewrite (mine_own _ _ Hnd HR).
  - unfold JobController.getJobById. simpl.
    by apply String.eqb_neq in He as ->.
Qed.

(** At the sample store, with the connection to the store lost. *)
Lemma ownership_check_failure_is_not_found_witness :
  (NoDup (id <$> jobs Sample.store)
   ∧ Sample.google ∈ jobs Sample.store
   ∧ pg_code Sample.connection_lost ≠ "PGRST116")
  ∧ JobController.getJobById Sample.store None Sample.alice
      (id Sample.google)
    = Sent (ok (PJob None Sample.google))
  ∧ JobController.deleteJob Sample.store (Some Sample.connection_lost) None
      Sample.alice (id Sample.google)
    = (Sample.store,
       Thrown (APIError "Job application not found" 404 "NOT_FOUND")).
Proof.
  assert (H1 : NoDup (id <$> jobs Sample.store))
    by (apply (bool_decide_unpack _); vm_compute; exact I).
  assert (H2 : Sample.google ∈ jobs Sample.store)
    by (apply (bool_decide_unpack _); vm_compute; exact I).
  assert (H3 : pg_code Sample.connection_lost ≠ "PGRST116") by discriminate.
  split; [done|].
  destruct (ownership_check_failure_is_not_found Sample.store
              Sample.connection_lost None Sample.clock Sample.google ∅
              H1 H2 H3) as (Hget & _ & _ & Hdel).
  split; [exact Hget|exact Hdel].
Defined.

(** X6. An update whose body does not name [user_id] leaves the owner of
    every record as it was, whatever else the body holds and whatever the
    store answers. *)
Theorem update_keeps_owners
        (st : Store) (f1 f2 : option PgError) (clk : Clock)
        (userId i : string) (updates : gmap string string) :
  updates !! "user_id" = None ->
  user_id <$> jobs (JobController.updateJob st f1 f2 clk userId i updates).1
  = user_id <$> jobs st.
Proof.
  intros Hnone. unfold JobController.updateJob.
  destruct (Pg.answer f1 _) as [_|_]; [|done].
  destruct f2 as [e|]; simpl; [done|].
  destruct (Pg.returning_single _) as [[st' r]|err] eqn:Hw; [|done].
  apply returning_single_inl, update_inl in Hw as (_ & _ & Hjobs & _).
  cbn [fst]. rewrite Hjobs, <- list_fmap_compose. apply list_fmap_ext.
  intros k r' _. simpl. destruct (decide (Pg.mine i userId r')); [|done].
  simpl. by rewrite lookup_insert_ne, Hnone.
Qed.

(** At the sample store: an update of two fields. *)
Lemma update_keeps_owners_witness :
  ({["status" := "Offer"; "notes" := "Signed"]} : gmap string string)
    !! "user_id" = None
  ∧ user_id <$> jobs (JobController.updateJob Sample.store None None
                        Sample.clock Sample.alice (id Sample.google)
                        {["status" := "Offer"; "notes" := "Signed"]}).1
    = user_id <$> jobs Sample.store.
Proof.
  split; [reflexivity|].
  by apply (update_keeps_owners Sample.store None None Sample.clock
              Sample.alice (id Sample.google)).
Defined.

Section UpdateFacts.

Import Pg JobController.

Variable isISO8601 : string -> bool.


End UpdateFacts.






(** ** Create, get and delete together *)

Section RoundTripFacts.

Import Pg JobController.

Lemma id_unique (rows : list Row) (r R : Row) :
  NoDup (id <$> rows) -> r ∈ rows -> R ∈ rows -> id r = id R -> r = R.
Proof.
  intros Hnd Hr HR Hid.
  induction rows as [|x rows IH]; [by apply elem_of_nil in Hr|].
  rewrite fmap_cons, NoDup_cons in Hnd. destruct Hnd as [Hx Hnd].
  apply elem_of_cons in Hr as [->|Hr]; apply elem_of_cons in HR as [->|HR].
  - done.
  - exfalso. apply Hx. rewrite Hid. by apply list_elem_of_fmap_2.
  - exfalso. apply Hx. rewrite <- Hid. by apply list_elem_of_fmap_2.
  - by apply IH.
Qed.

Lemma filter_ext_in (P Q : Row -> Prop) `{!forall r, Decision (P r)}
      `{!forall r, Decision (Q r)} (rows : list Row) :
  (forall r, r ∈ rows -> P r <-> Q r) -> filter P rows = filter Q rows.
Proof.
  induction rows as [|x rows IH]; intros Hext; [done|].
  rewrite !filter_cons.
  rewrite IH by (intros r Hr; apply Hext; by right).
  destruct (decide (P x)) as [HP|HP], (decide (Q x)) as [HQ|HQ];
    try done; exfalso; [apply HQ|apply HP]; by apply (Hext x); [left|].
Qed.

(** The rows left when a record is deleted by its identifier and owner. *)
Lemma delete_own (rows : list Row) (R : Row) :
  NoDup (id <$> rows) -> R ∈ rows ->
  filter (fun r => ¬ mine (id R) (user_id R) r) rows
  = filter (fun r => r ≠ R) rows.
Proof.
  intros Hnd HR. apply filter_ext_in. intros r Hr. split.
  - intros Hm ->. by apply Hm.
  - intros Hne [Hid _]. apply Hne. by eapply id_unique.
Qed.

Lemma deleted_id_absent (rows : list Row) (R : Row) :
  NoDup (id <$> rows) -> R ∈ rows ->
  id R ∉ (id <$> filter (fun r => r ≠ R) rows).
Proof.
  intros Hnd HR Hin.
  apply list_elem_of_fmap in Hin as (r & Hid & Hr).
  apply list_elem_of_filter in Hr as [Hne Hr].
  apply Hne. by eapply id_unique.
Qed.


End RoundTripFacts.



(** X9. A delete of a record the caller owns, with the store answering,
    removes that record and no other; after it a get of the identifier and
    a second delete both end in 404 [NOT_FOUND]. The identifiers of the
    table are unique. *)
Theorem delete_removes_own_record (st : Store) (R : Row) :
  NoDup (id <$> jobs st) -> R ∈ jobs st ->
  let st' := {| users := users st;
                jobs := filter (fun r => r ≠ R) (jobs st) |} in
  JobController.deleteJob st None None (user_id R) (id R)
  = (st', Sent (ok (PMessage "Job application deleted successfully")))
  ∧ JobController.getJobById st' None (user_id R) (id R)
    = Thrown (APIError "Job application not found" 404 "NOT_FOUND")
  ∧ forall f1 f2,
      JobController.deleteJob st' f1 f2 (user_id R) (id R)
      = (st', Thrown (APIError "Job application not found" 404 "NOT_FOUND")).
Proof.
  intros Hnd HR st'.
  pose proof (deleted_id_absent _ _ Hnd HR) as Habsent.
  assert (Hnone : filter (Pg.mine (id R) (user_id R)) (jobs st') = [])
    by (by apply mine_none_of_absent).
  split; [|split].
  - unfold JobController.deleteJob.
    rewrite (mine_own _ _ Hnd HR). simpl. unfold Pg.delete.
    by rewrite (delete_own _ _ Hnd HR).
  - unfold JobController.getJobById. by rewrite Hnone.
  - intros f1 f2. by apply deleteJob_none.
Qed.

(** At the sample store: Alice deletes one of her two records. *)
Lemma delete_removes_own_record_witness :
  (NoDup (id <$> jobs Sample.store) ∧ Sample.google ∈ jobs Sample.store)
  ∧ jobs (JobController.deleteJob Sample.store None None Sample.alice
            (id Sample.google)).1
    = [Sample.microsoft; Sample.amazon].
Proof.
  assert (H1 : NoDup (id <$> jobs Sample.store))
    by (apply (bool_decide_unpack _); vm_compute; exact I).
  assert (H2 : Sample.google ∈ jobs Sample.store)
    by (apply (bool_decide_unpack _); vm_compute; exact I).
  split; [done|].
  destruct (delete_removes_own_record Sample.store Sample.google H1 H2)
    as (Hdel & _ & _).
  change Sample.alice with (user_id Sample.google).
  rewrite Hdel. by vm_compute.
Defined.

(** ** The constraints of the schema *)

Section SchemaFacts.

Import Pg JobController.






End SchemaFacts.



(** ** The deletion of an account *)

(** X11. [deleteAccount] deletes the caller's records in a first step that
    is not undone: when the store answers it, no record of the caller is
    left and the records of the other users are as they were, whether or
    not the deletion of the account then succeeds; the account is removed
    only when it does, and a failure of it is answered with 500
    [DELETE_ERROR]. When the first step fails nothing changes. *)
Theorem deleteAccount_steps
        (st : Store) (e : PgError) (ea : string) (fa : option string)
        (userId : string) :
  let others := filter (fun r => user_id r ≠ userId) (jobs st) in
  AuthController.deleteAccount st (Some e) fa userId
  = (st, Thrown (APIError "Failed to delete user data" 500 "DELETE_ERROR"))
  ∧ AuthController.deleteAccount st None (Some ea) userId
    = ({| users := users st; jobs := others |},
       Thrown (APIError "Failed to delete user account" 500 "DELETE_ERROR"))
  ∧ AuthController.deleteAccount st None None userId
    = ({| users := users st ∖ {[userId]}; jobs := others |},
       Sent (ok (PMessage "Account deleted successfully")))
  ∧ Forall (fun r => user_id r ≠ userId)
           (jobs (AuthController.deleteAccount st None fa userId).1)
  ∧ forall other, other ≠ userId ->
      filter (fun r => user_id r = other)
             (jobs (AuthController.deleteAccount st None fa userId).1)
      = filter (fun r => user_id r = other) (jobs st).
Proof.
  intros others.
  assert (Hidem : filter (fun r => user_id r ≠ userId) others = others).
  { unfold others. rewrite list_filter_filter.
    apply list_filter_iff. tauto. }
  split; [done|split; [done|split]].
  - unfold AuthController.deleteAccount. simpl. fold others.
    by rewrite Hidem.
  - assert (Hjobs : jobs (AuthController.deleteAccount st None fa userId).1
                    = others).
    { unfold AuthController.deleteAccount. simpl. fold others.
      destruct fa; simpl; [done|exact Hidem]. }
    rewrite Hjobs. split.
    + apply Forall_forall. intros r Hr.
      by apply list_elem_of_filter in Hr as [Hne _].
    + intros other Hother. unfold others. rewrite list_filter_filter.
      apply list_filter_iff. intros r. split; [tauto|].
      intros Hr. split; [done|]. by rewrite Hr.
Qed.

(** ** Statistics and listing together *)

Section CountFacts.

Import Pg JobController.

Lemma tally_partition (data : list string) :
  Forall (fun s => s ∈ statuses) data ->
  (tally "Applied" data + tally "Interview" data + tally "Rejected" data
   + tally "Offer" data = length data)%nat.
Proof.
  unfold tally. induction 1 as [|s data Hs _ IH]; [done|].
  rewrite !filter_cons. unfold statuses in Hs.
  rewrite !elem_of_cons, elem_of_nil in Hs.
  destruct Hs as [->|[->|[->|[->|[]]]]]; simpl; lia.
Qed.

(** Without a status and a search term, a list request matches the rows of
    the caller. *)
Lemma matches_all (userId : string) (rows : list Row) :
  filter (fun r => matches userId None None r) rows
  = filter (fun r => user_id r = userId) rows.
Proof.
  apply list_filter_iff. intros r. unfold matches. simpl.
  rewrite !andb_true_r. apply bool_decide_spec.
Qed.

End CountFacts.

(** X12. With the constraints of the schema, the four counts of the
    statistics add up to the total: every record of the caller is counted
    under exactly one status. *)
Theorem stats_counts_add_up
        (st : Store) (fault2 : option PgError) (userId : string)
        (stats : Stats) (recent : list Row) :
  consistent st ->
  JobController.getJobStats st None fault2 userId
  = Sent (ok (PStats stats recent)) ->
  (applied stats + interview stats + rejected stats + offer stats
   = total stats)%nat.
Proof.
  intros [_ Hrows]. unfold JobController.getJobStats. simpl.
  intros [= <- _]. simpl. apply tally_partition.
  apply Forall_fmap, Forall_forall. intros r Hr.
  apply list_elem_of_filter in Hr as [_ Hr].
  rewrite Forall_forall in Hrows. by apply Hrows.
Qed.

(** At the sample store, for Alice. *)
Lemma stats_counts_add_up_witness :
  let stats := {| total := 2; applied := 1; interview := 1; rejected := 0;
                  offer := 0 |} in
  let recent := [Sample.microsoft; Sample.google] in
  (consistent Sample.store
   ∧ JobController.getJobStats Sample.store None None Sample.alice
     = Sent (ok (PStats stats recent)))
  ∧ (applied stats + interview stats + rejected stats + offer stats
     = total stats)%nat.
Proof.
  intros stats recent.
  assert (H1 : consistent Sample.store).
  { split; [apply (bool_decide_unpack _); vm_compute; exact I|].
    repeat constructor; apply (bool_decide_unpack _); vm_compute; exact I. }
  assert (H2 : JobController.getJobStats Sample.store None None Sample.alice
               = Sent (ok (PStats stats recent)))
    by (by vm_compute).
  split; [done|].
  exact (stats_counts_add_up Sample.store None Sample.alice stats recent
           H1 H2).
Defined.

(** X13. The total of a list request without a status and a search term is
    the total of the statistics of the same caller, whatever its limit and
    offset. *)
Theorem list_total_is_stats_total
        (st : Store) (userId : string) (query : gmap string string)
        (data recent : list Row) (pg : Pagination) (stats : Stats) :
  query !! "status" = None -> query !! "search" = None ->
  JobController.getAllJobs st None userId query = Sent (ok (PJobs data pg)) ->
  JobController.getJobStats st None None userId
  = Sent (ok (PStats stats recent)) ->
  pg_total pg = Z.of_nat (total stats).
Proof.
  intros Hstatus Hsearch. unfold JobController.getAllJobs.
  rewrite Hstatus, Hsearch, matches_all. simpl.
  destruct (Pg.range _ _ _) as [page|err]; [|done].
  intros [= _ <-]. unfold JobController.getJobStats. simpl.
  intros [= <- _]. simpl. by rewrite length_fmap.
Qed.

(** At the sample store: the second page of one of Alice's records. *)
Lemma list_total_is_stats_total_witness :
  let pg := {| pg_total := 2; pg_limit := Some 1; pg_offset := Some 1;
               hasMore := false |} in
  JobController.getAllJobs Sample.store None Sample.alice
    {["limit" := "1"; "offset" := "1"]}
  = Sent (ok (PJobs [Sample.microsoft] pg))
  ∧ pg_total pg = Z.of_nat 2.
Proof.
  intros pg.
  assert (H : JobController.getAllJobs Sample.store None Sample.alice
                {["limit" := "1"; "offset" := "1"]}
              = Sent (ok (PJobs [Sample.microsoft] pg)))
    by (by vm_compute).
  split; [exact H|].
  exact (list_total_is_stats_total Sample.store Sample.alice
           {["limit" := "1"; "offset" := "1"]} [Sample.microsoft]
           (take 5 (merge_sort Pg.created_desc
                      (filter (fun r => user_id r = Sample.alice)
                              (jobs Sample.store))))
           pg
           {| total := 2; applied := 1; interview := 1; rejected := 0;
              offer := 0 |}
           eq_refl eq_refl H eq_refl).
Defined.

(** ** Search *)

Section SearchFacts.

Import Pg Pattern JobController.








End SearchFacts.






(** ** Email drafts, whatever the service does *)

Section DraftFacts.

Import OpenAI AiController.

Lemma generated_not_empty (s : Settled) (g : string) :
  generatedContent s = inl g -> (0 < String.length g)%nat.
Proof.
  destruct s as [c|e]; simpl; [|done].
  destruct (choices c) as [cs|]; [|done].
  destruct (option_map Js.trim (first_content cs)) as [[|a t]|]; try done.
  intros [= <-]. simpl. lia.
Qed.

Lemma or_else_not_empty (s d : string) :
  (0 < String.length d)%nat ->
  (0 < String.length (Js.or_else (Some s) d))%nat.
Proof. destruct s; simpl; [done|lia]. Qed.

Lemma parsed_not_empty (company title : option string) (g : string) :
  (0 < String.length g)%nat ->
  (0 < String.length (subject (parsed company title g)))%nat
  ∧ (0 < String.length (body (parsed company title g)))%nat
  ∧ generated_by (parsed company title g) = "ai"
  ∧ note (parsed company title g) = None.
Proof.
  intros Hg. unfold parsed.
  destruct (extract_subject _ _) as [subj start]. simpl.
  split; [|split; [|done]]; apply or_else_not_empty; [simpl; lia|done].
Qed.

End DraftFacts.

(** X15. A validated email request is always answered with status 200 and
    a subject and a body that are not empty, whatever the credential is and
    however the call of the service settles: either marked as generated by
    the service, without a note, or marked as generated by the template,
    with a note. The handler makes at most one call. *)
Theorem email_always_answered
        (apiKey : option string)
        (backend : OpenAI.ChatRequest -> OpenAI.Settled)
        (req b : gmap string string) :
  Validator.validateEmailGeneration req = (b, []) ->
  exists e : Email,
    (AiController.post_generate_email apiKey backend req).1
    = Sent {| http_status := 200; success := true; payload := PEmail e |}
    ∧ (0 < String.length (subject e))%nat
    ∧ (0 < String.length (body e))%nat
    ∧ (generated_by e = "ai" ∧ note e = None
       ∨ generated_by e = "template" ∧ is_Some (note e))
    ∧ (length (AiController.post_generate_email apiKey backend req).2 <= 1)%nat.
Proof.
  intros Hv. destruct (validated_email _ _ Hv) as [t Ht].
  pose proof (template_not_empty _ t (b !! "company_name") (b !! "role")
                (b !! "your_name") (b !! "recipient_name") Ht) as [Hs Hb].
  unfold AiController.post_generate_email. rewrite Hv. simpl.
  unfold AiController.generateEmail. rewrite Ht.
  destruct (OpenAI.isAIAvailable apiKey); simpl.
  - destruct (AiController.generatedContent _) as [g|err] eqn:Hg; simpl.
    + apply generated_not_empty in Hg.
      destruct (parsed_not_empty (b !! "company_name") (b !! "role") g Hg)
        as (H1 & H2 & H3 & H4).
      eexists. split; [reflexivity|]. by repeat split; [| |left|lia].
    + eexists. split; [reflexivity|]. simpl.
      by repeat split; [| |right|lia].
  - eexists. split; [reflexivity|]. simpl.
    by repeat split; [| |right|lia].
Qed.

(** At a service that answers with the sample completion. *)
Lemma email_always_answered_witness :
  Validator.validateEmailGeneration Sample.email_request
  = (Sample.email_request, [])
  ∧ exists e : Email,
      (AiController.post_generate_email Sample.api_key Sample.answering
         Sample.email_request).1
      = Sent {| http_status := 200; success := true; payload := PEmail e |}
      ∧ (0 < String.length (subject e))%nat
      ∧ (0 < String.length (body e))%nat.
Proof.
  assert (H : Validator.validateEmailGeneration Sample.email_request
              = (Sample.email_request, [])) by (by vm_compute).
  split; [exact H|].
  destruct (email_always_answered Sample.api_key Sample.answering
              Sample.email_request Sample.email_request H)
    as (e & He & Hs & Hb & _).
  by exists e.
Defined.

(** X16. The status endpoint and the email handler agree: for a validated
    request the handler calls the generative service, once, exactly when
    [getAIStatus] reports the service as available, and makes no call
    exactly when it reports it as unavailable. *)
Theorem status_tells_whether_called
        (apiKey : option string)
        (backend : OpenAI.ChatRequest -> OpenAI.Settled)
        (req b : gmap string string) :
  Validator.validateEmailGeneration req = (b, []) ->
  ((AiController.getAIStatus apiKey).1 = true
   <-> length (AiController.post_generate_email apiKey backend req).2 = 1%nat)
  ∧ ((AiController.getAIStatus apiKey).1 = false
     <-> (AiController.post_generate_email apiKey backend req).2 = []).
Proof.
  intros Hv. destruct (validated_email _ _ Hv) as [t Ht].
  unfold AiController.post_generate_email. rewrite Hv. simpl.
  unfold AiController.generateEmail, AiController.getAIStatus. rewrite Ht.
  destruct (OpenAI.isAIAvailable apiKey); simpl.
  - by destruct (AiController.generatedContent _).
  - done.
Qed.

(** At the sample credential and a service that rejects. *)
Lemma status_tells_whether_called_witness :
  Validator.validateEmailGeneration Sample.email_request
  = (Sample.email_request, [])
  ∧ (AiController.getAIStatus Sample.api_key).1 = true
  ∧ length (AiController.post_generate_email Sample.api_key
              Sample.quota_exceeded Sample.email_request).2 = 1%nat.
Proof.
  assert (H : Validator.validateEmailGeneration Sample.email_request
              = (Sample.email_request, [])) by (by vm_compute).
  split; [exact H|]. split; [reflexivity|].
  by apply (status_tells_whether_called Sample.api_key Sample.quota_exceeded
              Sample.email_request Sample.email_request H).
Defined.



(** ** The rules of a create request *)

Section RuleFacts.

Import Validator.

Variable isISO8601 : string -> bool.





(** What the sanitized body holds at each key. *)
Lemma sanitized_lookup (body : gmap string string) (k : string) :
  sanitized isISO8601 body !! k
  = if decide (k = "notes") then Js.trim <$> body !! "notes"
    else if decide (k = "role")
         then Some (Js.trim (toString (body !! "role")))
         else if decide (k = "company_name")
              then Some (Js.trim (toString (body !! "company_name")))
              else body !! k.
Proof.
  unfold sanitized, validateJobApplication, trimmed_opt, trimmed. simpl.
  destruct (decide (k = "notes")) as [->|Hn].
  - rewrite lookup_alter_eq. by rewrite !lookup_insert_ne.
  - rewrite lookup_alter_ne by done.
    destruct (decide (k = "role")) as [->|Hr].
    + rewrite lookup_insert_eq. by rewrite lookup_insert_ne.
    + rewrite lookup_insert_ne by done.
      destruct (decide (k = "company_name")) as [->|Hc].
      * by rewrite lookup_insert_eq.
      * by rewrite lookup_insert_ne.
Qed.

End RuleFacts.


(** X19. The sanitizing of [validateJobApplication] is idempotent: the body
    it hands on, validated again, is handed on unchanged with the same
    errors. *)
Theorem validateJobApplication_idempotent
        (isISO8601 : string -> bool) (body : gmap string string) :
  Validator.validateJobApplication isISO8601 (sanitized isISO8601 body)
  = Validator.validateJobApplication isISO8601 body.
Proof.
  assert (Hsame : sanitized isISO8601 (sanitized isISO8601 body)
                  = sanitized isISO8601 body).
  { apply map_eq. intros k. rewrite sanitized_lookup.
    rewrite (sanitized_lookup isISO8601 body "notes"),
            (sanitized_lookup isISO8601 body "role"),
            (sanitized_lookup isISO8601 body "company_name"),
            (sanitized_lookup isISO8601 body k).
    simpl.
    repeat case_decide; try done.
    - destruct (body !! "notes") as [n|]; simpl; [|done].
      by rewrite trim_idem.
    - by rewrite trim_idem.
    - by rewrite trim_idem. }
  unfold sanitized, Validator.validateJobApplication in Hsame.
  cbv zeta in Hsame. cbn [fst] in Hsame.
  unfold sanitized, Validator.validateJobApplication.
  cbv zeta. cbn [fst]. by rewrite !Hsame.
Qed.

(** ** Errors of the job controller *)

(** X20. Whatever error a handler of the job controller throws, the caller
    of a production server gets one of six fixed answers: 404 [NOT_FOUND],
    or 500 with the message [Internal server error] and the error code of
    the operation. Nothing of the store's own error reaches the caller. *)
Theorem job_errors_are_generic
        (st : Store) (f1 f2 : option PgError) (clk : Clock)
        (userId i : string) (body query : gmap string string) (e : JsError) :
  Thrown e ∈ [ JobController.getAllJobs st f1 userId query;
               JobController.getJobById st f1 userId i;
               (JobController.createJob st f1 clk userId body).2;
               (JobController.updateJob st f1 f2 clk userId i body).2;
               (JobController.deleteJob st f1 f2 userId i).2;
               JobController.getJobStats st f1 f2 userId ] ->
  respond false (Thrown e)
  = {| http_status := 404; success := false;
       payload := PError "Job application not found" "NOT_FOUND" [] |}
  ∨ exists code,
      code ∈ ["FETCH_ERROR"; "CREATE_ERROR"; "UPDATE_ERROR"; "DELETE_ERROR";
              "STATS_ERROR"]
      ∧ respond false (Thrown e)
        = {| http_status := 500; success := false;
             payload := PError "Internal server error" code [] |}.
Proof.
  rewrite !elem_of_cons, elem_of_nil.
  unfold JobController.getAllJobs, JobController.getJobById,
    JobController.createJob, JobController.updateJob,
    JobController.deleteJob, JobController.getJobStats.
  intros [H|[H|[H|[H|[H|[H|[]]]]]]];
    repeat case_match; cbn [snd] in *; simplify_eq;
    first [ by left
          | right; eexists; (split; [|reflexivity]);
            rewrite !elem_of_cons; tauto ].
Qed.

(** At the sample store, with the connection lost on the statistics. *)
Lemma job_errors_are_generic_witness :
  let e := APIError "Failed to fetch statistics" 500 "STATS_ERROR" in
  JobController.getJobStats Sample.store (Some Sample.connection_lost) None
    Sample.alice = Thrown e
  ∧ (respond false (Thrown e)
     = {| http_status := 404; success := false;
          payload := PError "Job application not found" "NOT_FOUND" [] |}
     ∨ exists code,
         code ∈ ["FETCH_ERROR"; "CREATE_ERROR"; "UPDATE_ERROR";
                 "DELETE_ERROR"; "STATS_ERROR"]
         ∧ respond false (Thrown e)
           = {| http_status := 500; success := false;
                payload := PError "Internal server error" code [] |}).
Proof.
  intros e. split; [reflexivity|].
  apply (job_errors_are_generic Sample.store (Some Sample.connection_lost)
           None Sample.clock Sample.alice (id Sample.google) ∅ ∅ e).
  rewrite !elem_of_cons. do 5 right. by left.
Defined.
